(** * google_auth_proxy: the delegated credential validator and the
      request dispatcher, embedded from [htpasswd_proxy.go] and
      [oauthproxy.go].

    The Go code is stateful; the embedding threads the state explicitly.
    - [GoTime]: [time.Time] and [time.Duration] as integers in nanoseconds.
    - [Htpasswd]: [HtpasswdProxy] with its credential cache, over a world
      that also holds the clock, the log and the probes sent.
    - [Proxy]: [OauthProxy], its cookie handling and [ServeHTTP], as a
      computation that emits the effects it performs on the response
      writer, the collaborators and the router.
    - [Reading]: the notions of the specification the properties compare
      the code with; [HtpasswdFixtures] and [ProxyFixtures]: concrete
      environments.
    - [HtpasswdProps] and [ProxyProps]: the properties. *)

From stdpp Require Import base tactics option strings pretty gmap list.
From Stdlib Require Import ZArith NArith Ascii Lia.

Local Open Scope Z_scope.

(** ** Go's [time] package, as far as the code uses it *)

Module GoTime.

(** A [time.Time] is an instant, a [time.Duration] a span; both count
    nanoseconds.  Instants are counted from the Unix epoch. *)
Abbreviation Time := Z (only parsing).
Abbreviation Duration := Z (only parsing).

Definition Nanosecond : Duration := 1.
Definition Second : Duration := 1000000000.
Definition Minute : Duration := 60 * Second.
Definition Hour : Duration := 60 * Minute.

(** The zero value [time.Time{}]: January 1, year 1, 00:00:00 UTC. *)
Definition zero_Time : Time := -62135596800 * Second.

(** [t.Add(d)] *)
Definition Add (t : Time) (d : Duration) : Time := t + d.

(** [t.After(u)] *)
Definition After (t u : Time) : bool := u <? t.

(** [t.Unix()]: whole seconds since the epoch, rounded down. *)
Definition Unix (t : Time) : Z := t / Second.

End GoTime.

(** ** Go's [strings] package, as far as the code uses it *)

Module GoStrings.

(** [strings.HasPrefix(s, prefix)] *)
Definition HasPrefix (s pre : string) : bool := String.prefix pre s.

(** [strings.HasSuffix(s, suffix)] *)
Definition HasSuffix (s suf : string) : bool :=
  let n := String.length s in
  let k := String.length suf in
  (k <=? n)%nat && String.eqb (String.substring (n - k) k s) suf.

(** The text before and after the first occurrence of the byte [sep]. *)
Fixpoint cut (sep : ascii) (s : string) : option (string * string) :=
  match s with
  | EmptyString => None
  | String c rest =>
      if Ascii.eqb c sep then Some (EmptyString, rest)
      else match cut sep rest with
           | Some (before, after) => Some (String c before, after)
           | None => None
           end
  end.

(** [strings.SplitN(s, sep, 2)] for a separator of one byte: at most two
    pieces, split at the first separator. *)
Definition SplitN2 (s : string) (sep : ascii) : list string :=
  match cut sep s with
  | Some (before, after) => [before; after]
  | None => [s]
  end.

(** [c] occurs in [s]. *)
Fixpoint contains (c : ascii) (s : string) : bool :=
  match s with
  | EmptyString => false
  | String d rest => Ascii.eqb d c || contains c rest
  end.

End GoStrings.

(** ** [encoding/base64]: [StdEncoding] *)

Module Base64.
Local Open Scope N_scope.

Definition alphabet : string :=
  "ABCDEFGHIJKLMNOPQRSTUVWXYZabcdefghijklmnopqrstuvwxyz0123456789+/".

Definition pad : ascii := "="%char.

Definition enc (n : N) : ascii :=
  default "A"%char (String.get (N.to_nat n) alphabet).

Definition sextet (c : ascii) : option N :=
  let n := N_of_ascii c in
  if (65 <=? n) && (n <=? 90) then Some (n - 65)
  else if (97 <=? n) && (n <=? 122) then Some (n - 71)
  else if (48 <=? n) && (n <=? 57) then Some (n + 4)
  else if n =? 43 then Some 62
  else if n =? 47 then Some 63
  else None.

Fixpoint encode_bytes (bs : list ascii) : list ascii :=
  match bs with
  | [] => []
  | [a] =>
      let x := N_of_ascii a in
      [enc (x / 4); enc ((x mod 4) * 16); pad; pad]
  | [a; b] =>
      let x := N_of_ascii a in
      let y := N_of_ascii b in
      [enc (x / 4); enc ((x mod 4) * 16 + y / 16); enc ((y mod 16) * 4); pad]
  | a :: b :: c :: rest =>
      let x := N_of_ascii a in
      let y := N_of_ascii b in
      let z := N_of_ascii c in
      enc (x / 4) :: enc ((x mod 4) * 16 + y / 16)
        :: enc ((y mod 16) * 4 + z / 64) :: enc (z mod 64)
        :: encode_bytes rest
  end.

(** [base64.StdEncoding.EncodeToString] *)
Definition EncodeToString (s : string) : string :=
  String.string_of_list_ascii (encode_bytes (String.list_ascii_of_string s)).

Fixpoint decode_quanta (cs : list ascii) : option (list ascii) :=
  match cs with
  | [] => Some []
  | a :: b :: c :: d :: rest =>
      match sextet a, sextet b with
      | Some x, Some y =>
          let b1 := ascii_of_N (x * 4 + y / 16) in
          if Ascii.eqb d pad then
            match rest with
            | [] =>
                if Ascii.eqb c pad then Some [b1]
                else match sextet c with
                     | Some z => Some [b1; ascii_of_N ((y mod 16) * 16 + z / 4)]
                     | None => None
                     end
            | _ => None
            end
          else
            match sextet c, sextet d, decode_quanta rest with
            | Some z, Some w, Some tail =>
                Some (b1 :: ascii_of_N ((y mod 16) * 16 + z / 4)
                         :: ascii_of_N ((z mod 4) * 64 + w) :: tail)
            | _, _, _ => None
            end
      | _, _ => None
      end
  | _ => None
  end.

Definition is_newline (c : ascii) : bool :=
  (N_of_ascii c =? 10) || (N_of_ascii c =? 13).

(** [base64.StdEncoding.DecodeString]: carriage returns and line feeds
    are skipped; [None] is a non-nil error. *)
Definition DecodeString (s : string) : option string :=
  String.string_of_list_ascii <$>
    decode_quanta (List.filter (fun c => negb (is_newline c)) (String.list_ascii_of_string s)).

End Base64.

(** ** [net/url]: query values and their encoding *)

Module GoURL.

(** [url.Values]: for each key the values added, in order. *)
Definition Values := list (string * list string).

(** [v.Add(key, value)] *)
Fixpoint Add (key value : string) (v : Values) : Values :=
  match v with
  | [] => [(key, [value])]
  | (k, vs) :: rest =>
      if String.eqb k key then (k, vs ++ [value]) :: rest
      else (k, vs) :: Add key value rest
  end.

(** [v.Get(key)]: the first value of the key, or the empty string. *)
Fixpoint Get (key : string) (v : Values) : string :=
  match v with
  | [] => EmptyString
  | (k, vs) :: rest =>
      if String.eqb k key then default EmptyString (head vs) else Get key rest
  end.

(** The key is present. *)
Fixpoint Has (key : string) (v : Values) : bool :=
  match v with
  | [] => false
  | (k, _) :: rest => String.eqb k key || Has key rest
  end.

Definition hex_digit (n : N) : ascii :=
  default "0"%char (String.get (N.to_nat n) "0123456789ABCDEF").

Definition unreserved (c : ascii) : bool :=
  let n := N_of_ascii c in
  ((65 <=? n) && (n <=? 90) || (97 <=? n) && (n <=? 122)
   || (48 <=? n) && (n <=? 57)
   || (n =? 45) || (n =? 95) || (n =? 46) || (n =? 126))%N.

(** [url.QueryEscape] *)
Fixpoint QueryEscape (s : string) : string :=
  match s with
  | EmptyString => EmptyString
  | String c rest =>
      if unreserved c then String c (QueryEscape rest)
      else if Ascii.eqb c " "%char then String "+"%char (QueryEscape rest)
      else String "%"%char
             (String (hex_digit (N_of_ascii c / 16))
                (String (hex_digit (N_of_ascii c mod 16)) (QueryEscape rest)))
  end.

Fixpoint insert_sorted (e : string * list string) (v : Values) : Values :=
  match v with
  | [] => [e]
  | e' :: rest =>
      if String.leb (fst e) (fst e') then e :: e' :: rest
      else e' :: insert_sorted e rest
  end.

Definition sort_by_key (v : Values) : Values :=
  List.fold_right insert_sorted [] v.

Definition pairs_of (v : Values) : list string :=
  List.flat_map
    (fun e => List.map (fun x => QueryEscape (fst e) +:+ "=" +:+ QueryEscape x) (snd e))
    (sort_by_key v).

(** [v.Encode()]: [key=value] pairs, escaped, sorted by key, joined
    by [&]. *)
Definition Encode (v : Values) : string :=
  String.concat "&" (pairs_of v).

End GoURL.

(** ** htpasswd_proxy.go *)

Module Htpasswd.
Import GoTime.

(** [*http.Response], as far as [Validate] reads it. *)
Record Response := { StatusCode : Z }.

Definition StatusOK : Z := 200.
Definition StatusUnauthorized : Z := 401.

(** What [http.DefaultClient.Do] returns: the pair [(res, err)], each of
    which may be nil. *)
Record DoResult := { res : option Response; err : option string }.

(** [type HtpasswdProxy struct]; [cache_m = None] is the nil map. *)
Record HtpasswdProxy := {
  url : string;
  cache_m : option (gmap string Time)
}.

(** The probe sent by [Validate]: GET [url] with Basic credentials. *)
Record Probe := { probe_url : string; probe_user : string; probe_password : string }.

(** The world [Validate] runs in: the proxy object, how often the clock
    was read, the probes sent so far (latest first) and the log (latest
    first). *)
Record World := {
  h : HtpasswdProxy;
  clock_reads : nat;
  probes : list Probe;
  logged : list string
}.

Inductive panic := NilPointerDereference | AssignmentToNilMap.

Inductive result (A : Type) :=
| Ret (a : A)
| Panic (p : panic).
Arguments Ret {A} a.
Arguments Panic {A} p.

(** A computation reads and changes the world and returns or panics. *)
Definition M (A : Type) : Type := World -> result A * World.

Definition ret {A} (a : A) : M A := fun w => (Ret a, w).

Definition bind {A B} (c : M A) (k : A -> M B) : M B := fun w =>
  match c w with
  | (Ret a, w') => k a w'
  | (Panic p, w') => (Panic p, w')
  end.

Notation "'let*' x := c 'in' k" := (bind c (fun x => k))
  (at level 10, x name, c at level 100, k at level 200).
Notation "'run' c 'in' k" := (bind c (fun _ => k))
  (at level 10, c at level 100, k at level 200).

(** [NewHtpasswdProxy] for a URL that [url.Parse] accepts: the cache map
    starts nil. *)
Definition NewHtpasswdProxy (urlStr : string) : HtpasswdProxy :=
  {| url := urlStr; cache_m := None |}.

Definition initial_World (urlStr : string) : World :=
  {| h := NewHtpasswdProxy urlStr; clock_reads := 0; probes := []; logged := [] |}.

Definition set_cache (m : gmap string Time) (w : World) : World :=
  {| h := {| url := url (h w); cache_m := Some m |};
     clock_reads := clock_reads w; probes := probes w; logged := logged w |}.

(** The map a lookup sees: a nil map or one with more than 100 entries
    is replaced by an empty one. *)
Definition lookup_map (c : option (gmap string Time)) : gmap string Time :=
  match c with
  | None => ∅
  | Some m => if 100 <? Z.of_nat (size m) then ∅ else m
  end.

(** The cache key [user+":"+password]. *)
Definition cache_key (user password : string) : string :=
  user +:+ ":" +:+ password.

(** The probe [Validate] sends for a pair in the world [w]. *)
Definition the_probe (user password : string) (w : World) : Probe :=
  {| probe_url := url (h w); probe_user := user; probe_password := password |}.

(** The time [t] a lookup of the pair reads from the map in the world
    [w]: the entry, or the zero time when there is none. *)
Definition seen_at (user password : string) (w : World) : Time :=
  default zero_Time (lookup_map (cache_m (h w)) !! cache_key user password).

Section Environment.

(** [clock n] is what the [n]-th call of [time.Now()] returns. *)
Variable clock : nat -> Time.

(** [transport n p] is what [http.DefaultClient.Do] returns for the
    probe [p] when [n] probes were sent before it. *)
Variable transport : nat -> Probe -> DoResult.

Definition time_Now : M Time := fun w =>
  (Ret (clock (clock_reads w)),
   {| h := h w; clock_reads := S (clock_reads w);
      probes := probes w; logged := logged w |}).

Definition log_Printf (line : string) : M unit := fun w =>
  (Ret tt,
   {| h := h w; clock_reads := clock_reads w;
      probes := probes w; logged := line :: logged w |}).

(** [http.NewRequest("GET", h.url, nil)], [req.SetBasicAuth] and
    [http.DefaultClient.Do(req)]. *)
Definition http_Do (user password : string) : M DoResult := fun w =>
  let p := {| probe_url := url (h w); probe_user := user;
              probe_password := password |} in
  (Ret (transport (length (probes w)) p),
   {| h := h w; clock_reads := clock_reads w;
      probes := p :: probes w; logged := logged w |}).

(** Reading a field through a pointer; nil panics. *)
Definition deref {A} (ptr : option A) : M A := fun w =>
  match ptr with
  | Some a => (Ret a, w)
  | None => (Panic NilPointerDereference, w)
  end.

Definition cachedValidate (user password : string) : M bool := fun w =>
  let m := lookup_map (cache_m (h w)) in
  let t := default zero_Time (m !! cache_key user password) in
  (let* now := time_Now in
   ret (After (Add t Minute) now)) (set_cache m w).

Definition putValidateCache (user password : string) : M unit :=
  let* now := time_Now in
  fun w =>
    match cache_m (h w) with
    | Some m => (Ret tt, set_cache (<[cache_key user password := now]> m) w)
    | None => (Panic AssignmentToNilMap, w)
    end.

Definition invalid_response_line (u user e : string) : string :=
  "Invalid htpasswd proxy response for " +:+ u +:+ ". user:" +:+ user
    +:+ " error:" +:+ e.

Definition Validate (user password : string) : M bool :=
  let* hit := cachedValidate user password in
  if hit then ret true else
  let* r := http_Do user password in
  run (match err r with
       | Some e => fun w => log_Printf (invalid_response_line (url (h w)) user e) w
       | None => ret tt
       end) in
  let* response := deref (res r) in
  if StatusCode response =? StatusOK
  then run putValidateCache user password in ret true
  else ret false.

End Environment.

End Htpasswd.

(** ** oauthproxy.go *)

Module Proxy.
Import GoTime GoStrings.

Definition robotsPath : string := "/robots.txt".
Definition pingPath : string := "/ping".
Definition signInPath : string := "/oauth2/sign_in".
Definition oauthStartPath : string := "/oauth2/start".
Definition oauthCallbackPath : string := "/oauth2/callback".

(** [url.URL], as far as the code reads and writes it. *)
Record URL := { Scheme : string; URL_Host : string; URL_Path : string }.

(** [http.Cookie]; a cookie read from a request carries only its name
    and value. *)
Record Cookie := {
  Name : string;
  Value : string;
  Cookie_Path : string;
  Domain : string;
  HttpOnly : bool;
  Secure : bool;
  Expires : Time
}.

(** [http.Request]: [Path] is [req.URL.Path], [RequestURI] is
    [req.URL.RequestURI()], [Cookies] the parsed Cookie header,
    [ParseForm] the error of [req.ParseForm()] and [Form] the first
    value of each key of the parsed form (the empty string when the key
    is absent). *)
Record Request := {
  Method : string;
  Path : string;
  RequestURI : string;
  Host : string;
  RemoteAddr : string;
  Header : gmap string (list string);
  Cookies : list Cookie;
  ParseForm : option string;
  Form : string -> string
}.

(** [req.Header.Get(key)] for a key in canonical form. *)
Definition Header_Get (hd : gmap string (list string)) (key : string) : string :=
  default EmptyString (hd !! key ≫= head).

Definition set_Header (req : Request) (key : string) (values : list string) : Request :=
  {| Method := Method req; Path := Path req; RequestURI := RequestURI req;
     Host := Host req; RemoteAddr := RemoteAddr req;
     Header := <[key := values]> (Header req);
     Cookies := Cookies req; ParseForm := ParseForm req; Form := Form req |}.

(** The request with another Cookie header. *)
Definition set_Cookies (req : Request) (cookies : list Cookie) : Request :=
  {| Method := Method req; Path := Path req; RequestURI := RequestURI req;
     Host := Host req; RemoteAddr := RemoteAddr req; Header := Header req;
     Cookies := cookies; ParseForm := ParseForm req; Form := Form req |}.

(** [req.SetBasicAuth(username, password)] *)
Definition SetBasicAuth (req : Request) (username password : string) : Request :=
  set_Header req "Authorization"
    ["Basic " +:+ Base64.EncodeToString (username +:+ ":" +:+ password)].

(** [req.Cookie(name)]: the first cookie of that name, or
    [http.ErrNoCookie]. *)
Definition ErrNoCookie : string := "http: named cookie not present".

Definition req_Cookie (req : Request) (name : string) : option Cookie * option string :=
  match List.find (fun c => String.eqb (Name c) name) (Cookies req) with
  | Some c => (Some c, None)
  | None => (None, Some ErrNoCookie)
  end.

(** [req.FormValue(key)] once the form is parsed. *)
Definition FormValue (req : Request) (key : string) : string := Form req key.

(** The interface [providers.Provider]; a Go result [(x, err)] is a pair
    whose last component is the error, [None] for nil. *)
Record Provider := {
  Redeem : string -> string -> string * string * option string;
  GetEmailAddress : string -> string -> string * option string;
  ValidateToken : string -> bool;
  ProviderName : string
}.

(** What the code does to the response writer, the log, its collaborators
    and the router, in the order it does it. *)
Inductive event :=
| LogPrintf (line : string)
| WriteHeader (code : Z)
| Fprintf (body : string)
| SetResponseHeader (key value : string)
| HttpSetCookie (c : Cookie)
| HttpRedirect (target : string) (code : Z)
| ExecuteErrorTemplate (Title Message : string)
| ExecuteSignInTemplate (providerName signInMessage : string) (CustomLogin : bool)
                        (Redirect Version : string)
| CallValidator (email : string)
| CallValidateToken (access_token : string)
| CallRedeem (redirectUri code : string)
| CallGetEmailAddress (body access_token : string)
| CallHtpasswdValidator (user password : string)
| ServeMux (req : Request).

(** A computation reads the clock ([nat]: how often it was read before)
    and emits events. *)
Definition M (A : Type) : Type := nat -> A * nat * list event.

Definition ret {A} (a : A) : M A := fun n => (a, n, []).

Definition bind {A B} (c : M A) (k : A -> M B) : M B := fun n =>
  let '(a, n1, es1) := c n in
  let '(b, n2, es2) := k a n1 in
  (b, n2, es1 ++ es2).

Definition emit (e : event) : M unit := fun n => (tt, n, [e]).

Definition events_of {A} (r : A * nat * list event) : list event := snd r.
Definition value_of {A} (r : A * nat * list event) : A := fst (fst r).
Definition reads_of {A} (r : A * nat * list event) : nat := snd (fst r).

Notation "'let*' x := c 'in' k" := (bind c (fun x => k))
  (at level 10, x name, c at level 100, k at level 200).
Notation "'let*' ' pat := c 'in' k" := (bind c (fun x => match x with pat => k end))
  (at level 10, pat pattern, c at level 100, k at level 200).
Notation "'run' c 'in' k" := (bind c (fun _ => k))
  (at level 10, c at level 100, k at level 200).

(** The functions of this repository and of Go's library that the code
    calls and that are taken as given: regular expressions, the cookie
    signing and sealing of [cookies.go], URL printing, [net.SplitHostPort],
    the [%q] verb and the version string. *)
Record Externals := {
  Regexp : Type;
  MatchString : Regexp -> string -> bool;
  Block : Type;
  validateCookie : Cookie -> string -> string * Time * bool;
  parseCookieValue : string -> option Block -> string * string * string * option string;
  signedCookieValue : string -> string -> string -> string;
  buildCookieValue : string -> option Block -> string -> string * option string;
  URL_String : URL -> string;
  SplitHostPort : string -> string * string * option string;
  Quote : string -> string;
  VERSION : string
}.

(** [type OauthProxy struct], without the router, which is an event sink
    here, and the templates. *)
Record OauthProxy (X : Externals) := {
  CookieSeed : string;
  CookieKey : string;
  CookieDomain : string;
  CookieSecure : bool;
  CookieHttpOnly : bool;
  CookieExpire : Duration;
  CookieRefresh : Duration;
  Validator : string -> bool;
  redirectUrl : URL;
  provider : Provider;
  oauthLoginUrl : URL;
  oauthScope : string;
  clientID : string;
  clientSecret : string;
  SignInMessage : string;
  HtpasswdValidator : option (string -> string -> bool);
  DisplayHtpasswdForm : bool;
  PassBasicAuth : bool;
  PassAccessToken : bool;
  AesCipher : option (Block X);
  compiledRegex : list (Regexp X)
}.
Arguments CookieSeed {X}. Arguments CookieKey {X}. Arguments CookieDomain {X}.
Arguments CookieSecure {X}. Arguments CookieHttpOnly {X}.
Arguments CookieExpire {X}. Arguments CookieRefresh {X}.
Arguments Validator {X}. Arguments redirectUrl {X}. Arguments provider {X}.
Arguments oauthLoginUrl {X}. Arguments oauthScope {X}. Arguments clientID {X}.
Arguments clientSecret {X}. Arguments SignInMessage {X}.
Arguments HtpasswdValidator {X}. Arguments DisplayHtpasswdForm {X}.
Arguments PassBasicAuth {X}. Arguments PassAccessToken {X}.
Arguments AesCipher {X}. Arguments compiledRegex {X}.

Section Methods.

Variable X : Externals.

(** [clock n] is what the [n]-th call of [time.Now()] returns. *)
Variable clock : nat -> Time.

Variable p : OauthProxy X.

Definition time_Now : M Time := fun n => (clock n, S n, []).

Definition log_Printf (line : string) : M unit := emit (LogPrintf line).

Definition GetRedirectUrl (host : string) : string :=
  if negb (String.eqb (URL_Host (redirectUrl p)) "") then
    URL_String X (redirectUrl p)
  else
    let u := redirectUrl p in
    let scheme :=
      if String.eqb (Scheme u) "" then
        if CookieSecure p then "https" else "http"
      else Scheme u in
    URL_String X {| Scheme := scheme; URL_Host := host; URL_Path := URL_Path u |}.

(** The [params] of [GetLoginURL] before they are encoded. *)
Definition login_params (host redirect : string) : GoURL.Values :=
  let params := [] in
  let params := GoURL.Add "redirect_uri" (GetRedirectUrl host) params in
  let params := GoURL.Add "approval_prompt" "force" params in
  let params := GoURL.Add "scope" (oauthScope p) params in
  let params := GoURL.Add "client_id" (clientID p) params in
  let params := GoURL.Add "response_type" "code" params in
  if HasPrefix redirect "/" then GoURL.Add "state" redirect params else params.

Definition GetLoginURL (host redirect : string) : string :=
  URL_String X (oauthLoginUrl p) +:+ "?" +:+ GoURL.Encode (login_params host redirect).

Definition displayCustomLoginForm : bool :=
  match HtpasswdValidator p with
  | Some _ => DisplayHtpasswdForm p
  | None => false
  end.

Definition redeemCode (host code : string) : M (string * string * option string) :=
  if String.eqb code "" then ret (EmptyString, EmptyString, Some "missing code")
  else
    let redirectUri := GetRedirectUrl host in
    run emit (CallRedeem redirectUri code) in
    let '(body, access_token, err) := Redeem (provider p) redirectUri code in
    match err with
    | Some e => ret (EmptyString, EmptyString, Some e)
    | None =>
        run emit (CallGetEmailAddress body access_token) in
        let '(email, err) := GetEmailAddress (provider p) body access_token in
        match err with
        | Some e => ret (EmptyString, EmptyString, Some e)
        | None => ret (access_token, email, None)
        end
    end.

Definition MakeCookie (req : Request) (value : string) (expiration : Duration) : M Cookie :=
  let domain := Host req in
  let domain :=
    match SplitHostPort X domain with
    | (host, _, None) => host
    | (_, _, Some _) => domain
    end in
  let* domain :=
    if negb (String.eqb (CookieDomain p) "") then
      run (if negb (HasSuffix domain (CookieDomain p)) then
             log_Printf ("Warning: request host is " +:+ Quote X domain
                         +:+ " but using configured cookie domain of "
                         +:+ Quote X (CookieDomain p))
           else ret tt) in
      ret (CookieDomain p)
    else ret domain in
  let value :=
    if negb (String.eqb value "") then
      signedCookieValue X (CookieSeed p) (CookieKey p) value
    else value in
  let* now := time_Now in
  ret {| Name := CookieKey p; Value := value; Cookie_Path := "/";
         Domain := domain; HttpOnly := CookieHttpOnly p;
         Secure := CookieSecure p; Expires := Add now expiration |}.

Definition ClearCookie (req : Request) : M unit :=
  let* c := MakeCookie req "" (1 * Hour * -1) in
  emit (HttpSetCookie c).

Definition SetCookie (req : Request) (val : string) : M unit :=
  let* c := MakeCookie req val (CookieExpire p) in
  emit (HttpSetCookie c).

Definition ProcessCookie (req : Request) : M (string * string * string * bool) :=
  let '(value, timestamp, ok, (email, user, access_token), err) :=
    match req_Cookie req (CookieKey p) with
    | (Some cookie, None) =>
        let '(value, timestamp, ok) := validateCookie X cookie (CookieSeed p) in
        if ok then
          let '(email, user, access_token, err) :=
            parseCookieValue X value (AesCipher p) in
          (value, timestamp, ok, (email, user, access_token), err)
        else
          (value, timestamp, ok, (EmptyString, EmptyString, EmptyString), None)
    | (_, err) =>
        (EmptyString, zero_Time, false,
         (EmptyString, EmptyString, EmptyString), err)
    end in
  match err with
  | Some e =>
      run log_Printf e in
      ret (email, user, access_token, false)
  | None =>
      if negb (CookieRefresh p =? 0) then
        let expires := Add timestamp (CookieExpire p) in
        let* now := time_Now in
        let refresh_threshold := Add now (CookieRefresh p) in
        if Unix refresh_threshold >? Unix expires then
          let* valid := (run emit (CallValidator email) in ret (Validator p email)) in
          let* ok :=
            (if valid then
               run emit (CallValidateToken access_token) in
               ret (ValidateToken (provider p) access_token)
             else ret false) in
          run (if ok then SetCookie req value else ret tt) in
          ret (email, user, access_token, ok)
        else ret (email, user, access_token, ok)
      else ret (email, user, access_token, ok)
  end.

Definition RobotsTxt : M unit :=
  run emit (WriteHeader 200) in
  emit (Fprintf ("User-agent: *" +:+ String (ascii_of_nat 10) "Disallow: /")).

Definition PingPage : M unit :=
  run emit (WriteHeader 200) in
  emit (Fprintf "OK").

Definition ErrorPage (code : Z) (title message : string) : M unit :=
  run log_Printf ("ErrorPage " +:+ pretty code +:+ " " +:+ title +:+ " " +:+ message) in
  run emit (WriteHeader code) in
  emit (ExecuteErrorTemplate (pretty code +:+ " " +:+ title) message).

Definition SignInPage (req : Request) (code : Z) : M unit :=
  run ClearCookie req in
  run emit (WriteHeader code) in
  let redirect_url := RequestURI req in
  let redirect_url :=
    if String.eqb redirect_url signInPath then "/" else redirect_url in
  emit (ExecuteSignInTemplate (ProviderName (provider p)) (SignInMessage p)
          displayCustomLoginForm redirect_url (VERSION X)).

Definition ManualSignIn (req : Request) : M (string * bool) :=
  match HtpasswdValidator p with
  | None => ret (EmptyString, false)
  | Some validate =>
      if negb (String.eqb (Method req) "POST") then ret (EmptyString, false)
      else
        let user := FormValue req "username" in
        let passwd := FormValue req "password" in
        if String.eqb user "" then ret (EmptyString, false)
        else
          run emit (CallHtpasswdValidator user passwd) in
          if validate user passwd then
            run log_Printf ("authenticated " +:+ Quote X user +:+ " via manual sign in") in
            ret (user, true)
          else ret (EmptyString, false)
  end.

Definition GetRedirect (req : Request) : string * option string :=
  match ParseForm req with
  | Some e => (EmptyString, Some e)
  | None =>
      let redirect := FormValue req "rd" in
      let redirect := if String.eqb redirect "" then "/" else redirect in
      (redirect, None)
  end.

Definition basic_auth_line (user : string) : string :=
  "authenticated " +:+ Quote X user +:+ " via basic auth".

Definition CheckBasicAuth (req : Request) : M (string * bool) :=
  match HtpasswdValidator p with
  | None => ret (EmptyString, false)
  | Some validate =>
      match SplitN2 (Header_Get (Header req) "Authorization") " " with
      | [s0; s1] =>
          if negb (String.eqb s0 "Basic") then ret (EmptyString, false)
          else
            match Base64.DecodeString s1 with
            | None => ret (EmptyString, false)
            | Some b =>
                match SplitN2 b ":" with
                | [pair0; pair1] =>
                    run emit (CallHtpasswdValidator pair0 pair1) in
                    if validate pair0 pair1 then
                      run log_Printf (basic_auth_line pair0) in
                      ret (pair0, true)
                    else ret (EmptyString, false)
                | _ => ret (EmptyString, false)
                end
            end
      | _ => ret (EmptyString, false)
      end
  end.

(** The request as the router receives it once an identity is
    established. *)
Definition forwarded_request (req : Request) (user email access_token : string) : Request :=
  let req :=
    if PassBasicAuth p then
      let req := SetBasicAuth req user "" in
      let req := set_Header req "X-Forwarded-User" [user] in
      set_Header req "X-Forwarded-Email" [email]
    else req in
  if PassAccessToken p then
    set_Header req "X-Forwarded-Access-Token" [access_token]
  else req.

(** The skip-auth loop: the first compiled pattern that matches the
    path ends the search. *)
Fixpoint skip_auth (regexes : list (Regexp X)) (path : string) : bool :=
  match regexes with
  | [] => false
  | u :: rest => if MatchString X u path then true else skip_auth rest path
  end.

Definition ServeHTTP (req : Request) : M unit :=
  let remoteAddr := RemoteAddr req in
  let remoteAddr :=
    if negb (String.eqb (Header_Get (Header req) "X-Real-IP") "") then
      remoteAddr +:+ " (" +:+ Quote X (Header_Get (Header req) "X-Real-IP") +:+ ")"
    else remoteAddr in
  let ok := false in
  let user := EmptyString in
  let email := EmptyString in
  let access_token := EmptyString in
  if String.eqb (Path req) robotsPath then RobotsTxt
  else if String.eqb (Path req) pingPath then PingPage
  else if skip_auth (compiledRegex p) (Path req) then emit (ServeMux req)
  else if String.eqb (Path req) signInPath then
    let '(redirect, err) := GetRedirect req in
    match err with
    | Some e => ErrorPage 500 "Internal Error" e
    | None =>
        let* '(user, ok) := ManualSignIn req in
        if ok then
          run SetCookie req user in
          emit (HttpRedirect redirect 302)
        else SignInPage req 200
    end
  else if String.eqb (Path req) oauthStartPath then
    let '(redirect, err) := GetRedirect req in
    match err with
    | Some e => ErrorPage 500 "Internal Error" e
    | None => emit (HttpRedirect (GetLoginURL (Host req) redirect) 302)
    end
  else if String.eqb (Path req) oauthCallbackPath then
    match ParseForm req with
    | Some e => ErrorPage 500 "Internal Error" e
    | None =>
        let errorString := Form req "error" in
        if negb (String.eqb errorString "") then
          ErrorPage 403 "Permission Denied" errorString
        else
          let* '(access_token, email, err) := redeemCode (Host req) (Form req "code") in
          match err with
          | Some e =>
              run log_Printf (remoteAddr +:+ " error redeeming code " +:+ e) in
              ErrorPage 500 "Internal Error" e
          | None =>
              let redirect := Form req "state" in
              let redirect := if String.eqb redirect "" then "/" else redirect in
              run emit (CallValidator email) in
              if Validator p email then
                run log_Printf (remoteAddr +:+ " authenticating " +:+ email
                                +:+ " completed") in
                let '(value, err) := buildCookieValue X email (AesCipher p) access_token in
                run (match err with
                     | Some e => log_Printf e
                     | None => ret tt
                     end) in
                run SetCookie req value in
                emit (HttpRedirect redirect 302)
              else ErrorPage 403 "Permission Denied" "Invalid Account"
          end
    end
  else
    let* '(email, user, access_token, ok) :=
      (if negb ok then ProcessCookie req
       else ret (email, user, access_token, ok)) in
    let* '(user, ok) :=
      (if negb ok then CheckBasicAuth req else ret (user, ok)) in
    if negb ok then SignInPage req 403
    else
      let req := forwarded_request req user email access_token in
      run emit (SetResponseHeader "GAP-Auth"
                  (if String.eqb email "" then user else email)) in
      emit (ServeMux req).

End Methods.

End Proxy.

(** ** oauthproxy.go: building the proxy *)

Module Startup.
Import GoTime Proxy.

(** [providers.ProviderData], as far as [NewOauthProxy] reads it. *)
Record ProviderData := { Scope : string; LoginUrl : URL; ValidateUrl : URL }.

(** [type Options struct], read off the fields [NewOauthProxy] uses
    (the struct itself is declared in a file that is not at hand). *)
Record Options (X : Externals) := {
  opts_proxyUrls : list URL;
  opts_PassHostHeader : bool;
  opts_CompiledRegex : list (Regexp X);
  opts_redirectUrl : URL;
  opts_ClientID : string;
  opts_ClientSecret : string;
  opts_CookieSecret : string;
  opts_CookieDomain : string;
  opts_CookieHttpsOnly : bool;
  opts_CookieSecure : bool;
  opts_CookieHttpOnly : bool;
  opts_CookieExpire : Duration;
  opts_CookieRefresh : Duration;
  opts_PassBasicAuth : bool;
  opts_PassAccessToken : bool;
  opts_provider : Provider;
  opts_provider_Data : ProviderData
}.
Arguments opts_proxyUrls {X}. Arguments opts_PassHostHeader {X}.
Arguments opts_CompiledRegex {X}. Arguments opts_redirectUrl {X}.
Arguments opts_ClientID {X}. Arguments opts_ClientSecret {X}.
Arguments opts_CookieSecret {X}. Arguments opts_CookieDomain {X}.
Arguments opts_CookieHttpsOnly {X}. Arguments opts_CookieSecure {X}.
Arguments opts_CookieHttpOnly {X}. Arguments opts_CookieExpire {X}.
Arguments opts_CookieRefresh {X}. Arguments opts_PassBasicAuth {X}.
Arguments opts_PassAccessToken {X}. Arguments opts_provider {X}.
Arguments opts_provider_Data {X}.

(** One registration with the router: the path, the upstream host named
    in the GAP-Upstream-Address header, and whether the director rewrites
    the Host header ([setProxyUpstreamHostHeader]) or keeps it
    ([setProxyDirector]). *)
Record Route := { route_path : string; route_upstream : string; route_sets_host : bool }.

(** [NewOauthProxy] returns the proxy and what it registered, or ends the
    process in [log.Fatal]. *)
Inductive started (X : Externals) :=
| Started (p : OauthProxy X) (routes : list Route)
| Fatal (message : string).
Arguments Started {X} p routes.
Arguments Fatal {X} message.

Section NewOauthProxy.

Variable X : Externals.

(** [aes.NewCipher] on the bytes of the secret, the [String] method of a
    compiled expression and of a duration, taken as given. *)
Variable aes_NewCipher : string -> option (Block X) * option string.
Variable Regexp_String : Regexp X -> string.
Variable Duration_String : Duration -> string.

Definition bool_String (b : bool) : string := if b then "true" else "false".

Definition without_path (u : URL) : URL :=
  {| Scheme := Scheme u; URL_Host := URL_Host u; URL_Path := EmptyString |}.

Definition mapping_line (u : URL) : string :=
  "mapping path " +:+ Quote X (URL_Path u) +:+ " => upstream "
    +:+ Quote X (URL_String X (without_path u)).

Definition route_of (passHostHeader : bool) (u : URL) : Route :=
  {| route_path := URL_Path u; route_upstream := URL_Host u;
     route_sets_host := negb passHostHeader |}.

(** The log lines come latest last; the second component is the state of
    the process after the call.  What the router does with a path that is
    empty or registered twice is not modelled. *)
Definition NewOauthProxy (opts : Options X) (validator : string -> bool)
    : list string * started X :=
  let routes := List.map (route_of (opts_PassHostHeader opts)) (opts_proxyUrls opts) in
  let log1 := List.map mapping_line (opts_proxyUrls opts) in
  let log2 :=
    List.map (fun u => "compiled skip-auth-regex => " +:+ Quote X (Regexp_String u))
      (opts_CompiledRegex opts) in
  let redirectUrl :=
    {| Scheme := Scheme (opts_redirectUrl opts);
       URL_Host := URL_Host (opts_redirectUrl opts);
       URL_Path := oauthCallbackPath |} in
  let log3 := ["OauthProxy configured for " +:+ opts_ClientID opts] in
  let domain := opts_CookieDomain opts in
  let domain := if String.eqb domain "" then "<default>" else domain in
  let '(log4, cookieSecure) :=
    if negb (opts_CookieHttpsOnly opts) then
      (["Warning: cookie-https-only setting is deprecated and will be removed in a future version. use cookie-secure"],
       opts_CookieHttpsOnly opts)
    else ([], opts_CookieSecure opts) in
  let log5 :=
    ["Cookie settings: secure (https):" +:+ bool_String cookieSecure
       +:+ " httponly:" +:+ bool_String (opts_CookieHttpOnly opts)
       +:+ " expiry:" +:+ Duration_String (opts_CookieExpire opts)
       +:+ " domain:" +:+ domain] in
  let logs := log1 ++ log2 ++ log3 ++ log4 ++ log5 in
  let build (aes_cipher : option (Block X)) : started X :=
    Started
      {| CookieKey := "_oauthproxy";
         CookieSeed := opts_CookieSecret opts;
         CookieDomain := opts_CookieDomain opts;
         CookieSecure := cookieSecure;
         CookieHttpOnly := opts_CookieHttpOnly opts;
         CookieExpire := opts_CookieExpire opts;
         CookieRefresh := opts_CookieRefresh opts;
         Validator := validator;
         clientID := opts_ClientID opts;
         clientSecret := opts_ClientSecret opts;
         oauthScope := Scope (opts_provider_Data opts);
         provider := opts_provider opts;
         oauthLoginUrl := LoginUrl (opts_provider_Data opts);
         redirectUrl := redirectUrl;
         compiledRegex := opts_CompiledRegex opts;
         PassBasicAuth := opts_PassBasicAuth opts;
         PassAccessToken := opts_PassAccessToken opts;
         AesCipher := aes_cipher;
         SignInMessage := EmptyString;
         HtpasswdValidator := None;
         DisplayHtpasswdForm := false |}
      routes in
  if opts_PassAccessToken opts || negb (opts_CookieRefresh opts =? 0) then
    match aes_NewCipher (opts_CookieSecret opts) with
    | (_, Some e) =>
        (logs, Fatal ("error creating AES cipher with cookie-secret "
                        +:+ opts_CookieSecret opts +:+ ": " +:+ e))
    | (aes_cipher, None) => (logs, build aes_cipher)
    end
  else (logs, build None).

End NewOauthProxy.

End Startup.

(** ** Concrete environments, after [TestHtpasswdProxy] *)

Module HtpasswdFixtures.
Import GoTime Htpasswd.

Definition respond (code : Z) : DoResult :=
  {| res := Some {| StatusCode := code |}; err := None |}.

(** The handler of the test server: 200 for testuser/asdf, 401 for
    everybody else. *)
Definition test_server (_ : nat) (pr : Probe) : DoResult :=
  if negb (String.eqb (probe_user pr) "testuser")
     || negb (String.eqb (probe_password pr) "asdf")
  then respond StatusUnauthorized
  else respond StatusOK.

(** An endpoint nobody listens on: the client returns a nil response
    and an error. *)
Definition unreachable (_ : nat) (_ : Probe) : DoResult :=
  {| res := None; err := Some "dial tcp 127.0.0.1:1: connection refused" |}.

(** A clock that starts at [t0] and advances by [step] per reading. *)
Definition ticking (t0 step : Time) (n : nat) : Time := t0 + step * Z.of_nat n.

(** A cache with [n] entries, all validated at [t]. *)
Definition numbered_cache (n : nat) (t : Time) : gmap string Time :=
  list_to_map
    (List.map (fun i => (cache_key ("user" +:+ pretty i) "secret", t)) (seq 0 n)).

Definition world_with (m : gmap string Time) : World :=
  set_cache m (initial_World "http://127.0.0.1:8080/").

(** An endpoint that answers 200 to the one pair and 401 to every other. *)
Definition accepting (user password : string) (_ : nat) (pr : Probe) : DoResult :=
  if String.eqb (probe_user pr) user && String.eqb (probe_password pr) password
  then respond StatusOK
  else respond StatusUnauthorized.

End HtpasswdFixtures.

(** ** The specification's notions, for comparison with the code *)

Module Reading.
Import GoTime GoStrings Proxy.

(** The paths of the dispatch states DIAGNOSTIC and SIGN_IN,
    OAUTH_START, OAUTH_CALLBACK. *)
Definition diagnostic_path (path : string) : Prop :=
  path = robotsPath \/ path = pingPath.

Definition oauth_flow_path (path : string) : Prop :=
  path = signInPath \/ path = oauthStartPath \/ path = oauthCallbackPath.

(** The request with other credentials: another Cookie header and
    another Authorization header. *)
Definition with_credentials (req : Request) (cookies : list Cookie)
    (authorization : list string) : Request :=
  set_Header (set_Cookies req cookies) "Authorization" authorization.

(** Every event a computation emits, from whatever clock reading it
    starts, satisfies [P]. *)
Definition only {A} (P : event -> bool) (c : M A) : Prop :=
  forall n, forallb P (events_of (c n)) = true.

(** The event is a line of the log. *)
Definition is_log (e : event) : bool :=
  match e with LogPrintf _ => true | _ => false end.

(** The event hands the request to the router. *)
Definition is_forward (e : event) : bool :=
  match e with ServeMux _ => true | _ => false end.

(** The event asks the provider to redeem a code. *)
Definition is_redeem (e : event) : bool :=
  match e with CallRedeem _ _ => true | _ => false end.

(** The event asks the delegated validator. *)
Definition is_htpasswd_call (e : event) : bool :=
  match e with CallHtpasswdValidator _ _ => true | _ => false end.

(** The event answers the request: a status is written, a redirect is
    sent, or the request is handed to the router, which answers it. *)
Definition is_response (e : event) : bool :=
  match e with
  | WriteHeader _ | HttpRedirect _ _ | ServeMux _ => true
  | _ => false
  end.

(** How many events of a trace answer the request. *)
Definition responses (es : list event) : nat :=
  length (List.filter is_response es).

(** A computation that answers the request exactly once, from whatever
    clock reading it starts. *)
Definition responds_once {A} (c : M A) : Prop :=
  forall n, responses (events_of (c n)) = 1%nat.

(** The event sets a cookie. *)
Definition is_set_cookie (e : event) : bool :=
  match e with HttpSetCookie _ => true | _ => false end.

(** The event calls the provider or a validator. *)
Definition is_collaborator_call (e : event) : bool :=
  match e with
  | CallValidator _ | CallValidateToken _ | CallRedeem _ _
  | CallGetEmailAddress _ _ | CallHtpasswdValidator _ _ => true
  | _ => false
  end.

(** A redirect target that stays on the site: a path that starts with a
    single slash.  A target that starts with two slashes is a
    network-path reference (RFC 3986, 4.2): it names another host. *)
Definition same_site_relative_path (redirect : string) : bool :=
  HasPrefix redirect "/" && negb (HasPrefix redirect "//").

(** The refresh policy as the specification words it: stale when
    [now + CookieRefresh] lies after [issuedAt + CookieExpire]. *)
Definition stale_by_policy (now issuedAt : Time) (expire refresh : Duration) : bool :=
  now + refresh >? issuedAt + expire.

(** The Authorization header [hd] is [Basic], a space, and the standard
    base64 of a text with a colon, whose first colon stands between
    [user] and [password]. *)
Definition basic_credentials (hd user password : string) : Prop :=
  exists enc,
    hd = "Basic " +:+ enc /\
    Base64.DecodeString enc = Some (user +:+ ":" +:+ password) /\
    contains ":" user = false.

End Reading.

(** ** A concrete proxy and concrete requests *)

Module ProxyFixtures.
Import GoTime GoStrings Proxy.

Definition double_quote : ascii := ascii_of_nat 34.

(** Stand-ins for what [Externals] collects.  A skip-auth pattern is
    given by the path prefix it anchors; a cookie's value is its session
    value, issued at [issuedAt] and valid unless empty; the session value
    is the email. *)
Definition fixture_externals (issuedAt : Time) : Externals :=
  {| Regexp := string;
     MatchString := fun pattern path => String.prefix pattern path;
     Block := unit;
     validateCookie := fun c _ =>
       (Value c, issuedAt, negb (String.eqb (Value c) ""));
     parseCookieValue := fun value _ => (value, value, "token-of-" +:+ value, None);
     signedCookieValue := fun seed key value => value +:+ "|signed";
     buildCookieValue := fun email _ _ => (email, None);
     URL_String := fun u => Scheme u +:+ "://" +:+ URL_Host u +:+ URL_Path u;
     SplitHostPort := fun hostport =>
       match cut ":" hostport with
       | Some (host, port) => (host, port, None)
       | None => (EmptyString, EmptyString, Some "missing port in address")
       end;
     Quote := fun s => String double_quote s +:+ String double_quote EmptyString;
     VERSION := "dev" |}.

Definition fixture_provider : Provider :=
  {| Redeem := fun _ code => ("body-of-" +:+ code, "token-of-" +:+ code, None);
     GetEmailAddress := fun _ _ => ("user@example.com", None);
     ValidateToken := fun _ => true;
     ProviderName := "Google" |}.

(** A proxy in front of proxy.example.com whose delegated validator
    accepts testuser with the password a:b:c. *)
Definition fixture_proxy (issuedAt : Time) (expire refresh : Duration)
    (passBasicAuth passAccessToken : bool)
    (skip : list (Regexp (fixture_externals issuedAt)))
    : OauthProxy (fixture_externals issuedAt) :=
  {| CookieSeed := "seed"; CookieKey := "_oauthproxy"; CookieDomain := "";
     CookieSecure := true; CookieHttpOnly := true;
     CookieExpire := expire; CookieRefresh := refresh;
     Validator := fun email => HasSuffix email "@example.com";
     redirectUrl := {| Scheme := ""; URL_Host := ""; URL_Path := oauthCallbackPath |};
     provider := fixture_provider;
     oauthLoginUrl := {| Scheme := "https"; URL_Host := "accounts.google.com";
                         URL_Path := "/o/oauth2/auth" |};
     oauthScope := "profile email"; clientID := "client-id";
     clientSecret := "client-secret"; SignInMessage := "";
     HtpasswdValidator :=
       Some (fun user password =>
               String.eqb user "testuser" && String.eqb password "a:b:c");
     DisplayHtpasswdForm := false;
     PassBasicAuth := passBasicAuth; PassAccessToken := passAccessToken;
     AesCipher := None;
     compiledRegex := skip |}.

Definition no_form (_ : string) : string := EmptyString.

(** A GET of [path] with the given headers and cookies and an empty
    form. *)
Definition get (path : string) (hd : gmap string (list string)) (cookies : list Cookie)
    : Request :=
  {| Method := "GET"; Path := path; RequestURI := path;
     Host := "proxy.example.com"; RemoteAddr := "192.0.2.1:4711";
     Header := hd; Cookies := cookies; ParseForm := None; Form := no_form |}.

Definition with_form (req : Request) (err : option string) (form : string -> string)
    : Request :=
  {| Method := Method req; Path := Path req; RequestURI := RequestURI req;
     Host := Host req; RemoteAddr := RemoteAddr req; Header := Header req;
     Cookies := Cookies req; ParseForm := err; Form := form |}.

Definition session_cookie (value : string) : Cookie :=
  {| Name := "_oauthproxy"; Value := value; Cookie_Path := ""; Domain := "";
     HttpOnly := false; Secure := false; Expires := zero_Time |}.

(** Authorization: Basic base64(testuser:a:b:c) *)
Definition basic_testuser : gmap string (list string) :=
  {[ "Authorization" := ["Basic " +:+ Base64.EncodeToString "testuser:a:b:c"] ]}.

Definition error_form (key : string) : string :=
  if String.eqb key "error" then "access_denied" else EmptyString.

(** The proxy with another [Validator]. *)
Definition with_Validator {X : Externals} (p : OauthProxy X) (validator : string -> bool)
    : OauthProxy X :=
  {| CookieSeed := CookieSeed p; CookieKey := CookieKey p;
     CookieDomain := CookieDomain p; CookieSecure := CookieSecure p;
     CookieHttpOnly := CookieHttpOnly p; CookieExpire := CookieExpire p;
     CookieRefresh := CookieRefresh p; Validator := validator;
     redirectUrl := redirectUrl p; provider := provider p;
     oauthLoginUrl := oauthLoginUrl p; oauthScope := oauthScope p;
     clientID := clientID p; clientSecret := clientSecret p;
     SignInMessage := SignInMessage p;
     HtpasswdValidator := HtpasswdValidator p;
     DisplayHtpasswdForm := DisplayHtpasswdForm p;
     PassBasicAuth := PassBasicAuth p; PassAccessToken := PassAccessToken p;
     AesCipher := AesCipher p; compiledRegex := compiledRegex p |}.

(** A validator that accepts every email, the empty one too. *)
Definition everybody (_ : string) : bool := true.

(** The form of a sign-in POST for testuser, and that of a callback with
    a code and a state. *)
Definition sign_in_form (key : string) : string :=
  if String.eqb key "username" then "testuser"
  else if String.eqb key "password" then "a:b:c"
  else if String.eqb key "rd" then "https://elsewhere.example.org/"
  else EmptyString.

Definition callback_form (key : string) : string :=
  if String.eqb key "code" then "c0de"
  else if String.eqb key "state" then "/reports"
  else EmptyString.

(** Options with the deprecated cookie-https-only flag left off and
    cookie-secure on. *)
Definition fixture_options : Startup.Options (fixture_externals 0) :=
  {| Startup.opts_proxyUrls :=
       [{| Scheme := "http"; URL_Host := "127.0.0.1:8080"; URL_Path := "/" |}];
     Startup.opts_PassHostHeader := true;
     Startup.opts_CompiledRegex := [];
     Startup.opts_redirectUrl :=
       {| Scheme := "https"; URL_Host := "proxy.example.com"; URL_Path := "/wrong" |};
     Startup.opts_ClientID := "client-id";
     Startup.opts_ClientSecret := "client-secret";
     Startup.opts_CookieSecret := "0123456789abcdef";
     Startup.opts_CookieDomain := "";
     Startup.opts_CookieHttpsOnly := false;
     Startup.opts_CookieSecure := true;
     Startup.opts_CookieHttpOnly := true;
     Startup.opts_CookieExpire := 168 * Hour;
     Startup.opts_CookieRefresh := 0;
     Startup.opts_PassBasicAuth := true;
     Startup.opts_PassAccessToken := false;
     Startup.opts_provider := fixture_provider;
     Startup.opts_provider_Data :=
       {| Startup.Scope := "profile email";
          Startup.LoginUrl := {| Scheme := "https"; URL_Host := "accounts.google.com";
                                 URL_Path := "/o/oauth2/auth" |};
          Startup.ValidateUrl := {| Scheme := "https"; URL_Host := "www.googleapis.com";
                                    URL_Path := "/oauth2/v1/tokeninfo" |} |} |}.

(** [aes.NewCipher]: keys of 16, 24 or 32 bytes. *)
Definition fixture_NewCipher (key : string) : option unit * option string :=
  let n := String.length key in
  if (n =? 16)%nat || (n =? 24)%nat || (n =? 32)%nat then (Some tt, None)
  else (None, Some "crypto/aes: invalid key size").

Definition post (req : Request) : Request :=
  {| Method := "POST"; Path := Path req; RequestURI := RequestURI req;
     Host := Host req; RemoteAddr := RemoteAddr req; Header := Header req;
     Cookies := Cookies req; ParseForm := ParseForm req; Form := Form req |}.

End ProxyFixtures.

(** * Properties of the delegated validator *)

Module HtpasswdProps.
Import GoTime Htpasswd HtpasswdFixtures.

Ltac run_M :=
  unfold Validate, cachedValidate, putValidateCache, http_Do, deref,
    log_Printf, time_Now, bind, ret, set_cache; simpl.

Lemma After_false_iff (t u : Time) : After t u = false <-> t <= u.
Proof. unfold After. rewrite Z.ltb_ge. reflexivity. Qed.

Lemma After_true_iff (t u : Time) : After t u = true <-> u < t.
Proof. unfold After. apply Z.ltb_lt. Qed.

Lemma lookup_map_size (c : option (gmap string Time)) :
  (size (lookup_map c) <= 100)%nat.
Proof.
  destruct c as [m|]; simpl.
  - destruct (100 <? Z.of_nat (size m)) eqn:E.
    + rewrite map_size_empty. lia.
    + apply Z.ltb_ge in E. lia.
  - rewrite map_size_empty. lia.
Qed.

Lemma lookup_map_small (m : gmap string Time) :
  (size m <= 100)%nat -> lookup_map (Some m) = m.
Proof.
  intros H. simpl. destruct (100 <? Z.of_nat (size m)) eqn:E; [|reflexivity].
  apply Z.ltb_lt in E. lia.
Qed.

Lemma lookup_map_large (m : gmap string Time) :
  (100 < size m)%nat -> lookup_map (Some m) = ∅.
Proof.
  intros H. simpl. destruct (100 <? Z.of_nat (size m)) eqn:E; [reflexivity|].
  apply Z.ltb_ge in E. lia.
Qed.

#[local] Arguments lookup_map : simpl never.

Section Env.
Variable clock : nat -> Time.
Variable transport : nat -> Probe -> DoResult.

(** What a lookup returns and leaves behind. *)
Lemma cachedValidate_eq (user password : string) (w : World) :
  cachedValidate clock user password w =
    (Ret (After (Add (default zero_Time
                        (lookup_map (cache_m (h w)) !! cache_key user password))
                     Minute)
                (clock (clock_reads w))),
     {| h := {| url := url (h w); cache_m := Some (lookup_map (cache_m (h w))) |};
        clock_reads := S (clock_reads w);
        probes := probes w; logged := logged w |}).
Proof. reflexivity. Qed.

(** The cache map after [Validate], whatever the outcome: the map the
    lookup saw, with at most the validated key added. *)
Lemma Validate_cache (user password : string) (w : World) :
  exists m,
    cache_m (h (snd (Validate clock transport user password w))) = Some m /\
    (m = lookup_map (cache_m (h w)) \/
     exists t, m = <[cache_key user password := t]> (lookup_map (cache_m (h w)))).
Proof.
  run_M.
  destruct (After _ _); simpl; [eauto|].
  destruct (transport _ _) as [[r|] [e|]]; simpl; eauto;
    destruct (StatusCode r =? StatusOK); simpl; eauto.
Qed.

(** A miss whose probe fails in the transport: the failure is logged
    and the nil response is dereferenced. *)
Lemma Validate_transport_failure (user password e : string) (w : World) :
  fst (cachedValidate clock user password w) = Ret false ->
  transport (length (probes w))
    {| probe_url := url (h w); probe_user := user; probe_password := password |}
    = {| res := None; err := Some e |} ->
  fst (Validate clock transport user password w) = Panic NilPointerDereference /\
  logged (snd (Validate clock transport user password w))
    = invalid_response_line (url (h w)) user e :: logged w.
Proof.
  rewrite cachedValidate_eq. simpl. intros Hmiss Ht.
  injection Hmiss as Hmiss.
  run_M. rewrite Hmiss. simpl. rewrite Ht. simpl. split; reflexivity.
Qed.

(** A miss whose probe is answered with a status other than 200:
    [false], one probe, nothing cached. *)
Lemma Validate_non_200 (user password : string) (code : Z) (e : option string) (w : World) :
  fst (cachedValidate clock user password w) = Ret false ->
  transport (length (probes w))
    {| probe_url := url (h w); probe_user := user; probe_password := password |}
    = {| res := Some {| StatusCode := code |}; err := e |} ->
  code <> StatusOK ->
  fst (Validate clock transport user password w) = Ret false /\
  cache_m (h (snd (Validate clock transport user password w)))
    = Some (lookup_map (cache_m (h w))).
Proof.
  rewrite cachedValidate_eq. simpl. intros Hmiss Ht Hcode.
  injection Hmiss as Hmiss.
  run_M. rewrite Hmiss. simpl. rewrite Ht. simpl.
  apply Z.eqb_neq in Hcode.
  destruct e; simpl; rewrite Hcode; simpl; split; reflexivity.
Qed.

(** A hit: no probe, no clock reading beyond the lookup's. *)
Lemma Validate_hit (user password : string) (w : World) :
  clock (clock_reads w) < seen_at user password w + Minute ->
  Validate clock transport user password w =
    (Ret true,
     {| h := {| url := url (h w); cache_m := Some (lookup_map (cache_m (h w))) |};
        clock_reads := S (clock_reads w);
        probes := probes w; logged := logged w |}).
Proof.
  intros Hhit. apply After_true_iff in Hhit.
  run_M. unfold seen_at, Add in Hhit. unfold Add. rewrite Hhit. reflexivity.
Qed.

(** A miss answered with 200: one probe, the pair is cached at the
    time of the second clock reading. *)
Lemma Validate_miss_accepted (user password : string) (w : World) :
  seen_at user password w + Minute <= clock (clock_reads w) ->
  transport (length (probes w)) (the_probe user password w) = respond StatusOK ->
  Validate clock transport user password w =
    (Ret true,
     {| h := {| url := url (h w);
                cache_m := Some (<[cache_key user password := clock (S (clock_reads w))]>
                                   (lookup_map (cache_m (h w)))) |};
        clock_reads := S (S (clock_reads w));
        probes := the_probe user password w :: probes w; logged := logged w |}).
Proof.
  intros Hmiss Ht. apply After_false_iff in Hmiss.
  run_M. unfold seen_at, Add in Hmiss. unfold Add. rewrite Hmiss. simpl.
  unfold the_probe in Ht. rewrite Ht. reflexivity.
Qed.

(** A miss answered with another status: one probe, nothing cached. *)
Lemma Validate_miss_denied (user password : string) (code : Z) (w : World) :
  seen_at user password w + Minute <= clock (clock_reads w) ->
  transport (length (probes w)) (the_probe user password w) = respond code ->
  code <> StatusOK ->
  Validate clock transport user password w =
    (Ret false,
     {| h := {| url := url (h w); cache_m := Some (lookup_map (cache_m (h w))) |};
        clock_reads := S (clock_reads w);
        probes := the_probe user password w :: probes w; logged := logged w |}).
Proof.
  intros Hmiss Ht Hcode. apply After_false_iff in Hmiss.
  run_M. unfold seen_at, Add in Hmiss. unfold Add. rewrite Hmiss. simpl.
  unfold the_probe in Ht. rewrite Ht. simpl.
  apply Z.eqb_neq in Hcode. rewrite Hcode. reflexivity.
Qed.

(** [false] is returned only without an insertion. *)
Lemma Validate_false_not_cached (user password : string) (w : World) :
  fst (Validate clock transport user password w) = Ret false ->
  cache_m (h (snd (Validate clock transport user password w)))
    = Some (lookup_map (cache_m (h w))).
Proof.
  run_M.
  destruct (After _ _); simpl; [discriminate|].
  destruct (transport _ _) as [[r|] [e|]]; simpl; try discriminate;
    destruct (StatusCode r =? StatusOK); simpl; try discriminate; reflexivity.
Qed.

(** [true] is returned only with the pair in the cache and fresh. *)
Lemma Validate_true_cached (user password : string) (w : World) :
  zero_Time + Minute <= clock (clock_reads w) ->
  fst (Validate clock transport user password w) = Ret true ->
  exists m t,
    cache_m (h (snd (Validate clock transport user password w))) = Some m /\
    m !! cache_key user password = Some t.
Proof.
  intros Hclock. run_M.
  destruct (lookup_map (cache_m (h w)) !! cache_key user password) as [t|] eqn:Hl;
    simpl.
  - destruct (After _ _); simpl; [eauto|].
    destruct (transport _ _) as [[r|] [e|]]; simpl; try discriminate;
      destruct (StatusCode r =? StatusOK); simpl; try discriminate; intros _;
      eexists _, _; (split; [reflexivity | apply lookup_insert_eq]).
  - assert (After (Add zero_Time Minute) (clock (clock_reads w)) = false) as ->
      by (apply After_false_iff; exact Hclock).
    simpl.
    destruct (transport _ _) as [[r|] [e|]]; simpl; try discriminate;
      destruct (StatusCode r =? StatusOK); simpl; try discriminate; intros _;
      eexists _, _; (split; [reflexivity | apply lookup_insert_eq]).
Qed.

End Env.

(** C1 (the code departs from the claim): with an empty cache and an
    endpoint that cannot be reached, [Validate] logs the failure and then
    panics on the nil response; it does not return [false]. *)
Theorem Validate_unreachable_panics :
  let out := Validate (ticking 0 1) unreachable "testuser" "asdf"
               (initial_World "http://127.0.0.1:1/") in
  fst out = Panic NilPointerDereference /\
  fst out <> Ret false /\
  logged (snd out) =
    ["Invalid htpasswd proxy response for http://127.0.0.1:1/. user:testuser error:dial tcp 127.0.0.1:1: connection refused"] /\
  length (probes (snd out)) = 1%nat.
Proof. vm_compute. repeat split; congruence. Qed.

(** C5: a lookup at a time at least one minute after Go's zero time.
    (a) With at most 100 entries in the cache, an entry for the pair that
    is one minute old or older makes the lookup answer [false], exactly as
    it answers when the entry is deleted, and the entry stays in the map.
    (b) With more than 100 entries, the lookup leaves the empty map behind
    and answers [false], whatever the entries were. *)
Theorem cachedValidate_expiry_and_reset
    (clock : nat -> Time) (user password : string) (w : World) (m : gmap string Time) :
  zero_Time + Minute <= clock (clock_reads w) ->
  cache_m (h w) = Some m ->
  let out := cachedValidate clock user password w in
  ((size m <= 100)%nat ->
   forall t, m !! cache_key user password = Some t ->
             t + Minute <= clock (clock_reads w) ->
     fst out = Ret false /\
     fst (cachedValidate clock user password
            (set_cache (delete (cache_key user password) m) w)) = Ret false /\
     cache_m (h (snd out)) = Some m) /\
  ((100 < size m)%nat ->
     fst out = Ret false /\ cache_m (h (snd out)) = Some ∅).
Proof.
  intros Hclock Hm out. subst out. rewrite !cachedValidate_eq. simpl.
  rewrite Hm. split.
  - intros Hsize t Ht Hold.
    rewrite lookup_map_small by exact Hsize.
    rewrite lookup_map_small
      by (rewrite (map_size_delete_Some _ m) by (exists t; exact Ht); lia).
    rewrite Ht, lookup_delete_eq. simpl.
    repeat split; f_equal; apply After_false_iff; unfold Add; lia.
  - intros Hsize. rewrite lookup_map_large by exact Hsize.
    rewrite lookup_empty. simpl. split; [|reflexivity].
    f_equal. apply After_false_iff. exact Hclock.
Qed.

(** C5, at a full cache of 101 fresh entries: the lookup of a pair
    validated at that very moment resets the cache and misses. *)
Lemma cachedValidate_expiry_and_reset_witness :
  let w := world_with (numbered_cache 101 0) in
  let out := cachedValidate (ticking 0 1) "user7" "secret" w in
  numbered_cache 101 0 !! cache_key "user7" "secret" = Some 0 /\
  fst out = Ret false /\ cache_m (h (snd out)) = Some ∅.
Proof.
  split; [vm_compute; reflexivity|].
  refine (proj2 (cachedValidate_expiry_and_reset (ticking 0 1) "user7" "secret"
                   (world_with (numbered_cache 101 0)) (numbered_cache 101 0)
                   _ _) _).
  - vm_compute. discriminate.
  - reflexivity.
  - vm_compute. lia.
Defined.

(** C6: the scenario of [TestHtpasswdProxy], for every clock that is past
    Go's zero time by a minute at the two lookups that miss and for which
    the third lookup falls within a minute of the caching.  The three
    calls return true, false, true; the probes sent number 1, 2, 2; the
    cache ends with the one accepted pair.  Moreover, for every endpoint
    and world, a call that returns [false] leaves no new entry, and a call
    that returns [true] leaves the pair in the cache. *)
Theorem TestHtpasswdProxy_scenario (clock : nat -> Time) (urlStr : string) :
  zero_Time + Minute <= clock 0%nat ->
  zero_Time + Minute <= clock 2%nat ->
  clock 3%nat < clock 1%nat + Minute ->
  let validate := Validate clock test_server in
  let r1 := validate "testuser" "asdf" (initial_World urlStr) in
  let r2 := validate "notfound" "asdf" (snd r1) in
  let r3 := validate "testuser" "asdf" (snd r2) in
  (fst r1 = Ret true /\ length (probes (snd r1)) = 1%nat) /\
  (fst r2 = Ret false /\ length (probes (snd r2)) = 2%nat) /\
  (fst r3 = Ret true /\ length (probes (snd r3)) = 2%nat) /\
  cache_m (h (snd r3)) = Some {[ cache_key "testuser" "asdf" := clock 1%nat ]} /\
  (forall transport user password w,
     fst (Validate clock transport user password w) = Ret false ->
     cache_m (h (snd (Validate clock transport user password w)))
       = Some (lookup_map (cache_m (h w)))) /\
  (forall transport user password w,
     zero_Time + Minute <= clock (clock_reads w) ->
     fst (Validate clock transport user password w) = Ret true ->
     exists m t,
       cache_m (h (snd (Validate clock transport user password w))) = Some m /\
       m !! cache_key user password = Some t).
Proof.
  intros H0 H2 H3 validate r1 r2 r3.
  assert (E1 : r1 = (Ret true,
            {| h := {| url := urlStr;
                       cache_m := Some {[ cache_key "testuser" "asdf" := clock 1%nat ]} |};
               clock_reads := 2;
               probes := [the_probe "testuser" "asdf" (initial_World urlStr)];
               logged := [] |})).
  { subst r1 validate. rewrite Validate_miss_accepted; [reflexivity| |reflexivity].
    unfold seen_at, lookup_map. simpl. rewrite lookup_empty. exact H0. }
  assert (E2 : r2 = (Ret false,
            {| h := {| url := urlStr;
                       cache_m := Some {[ cache_key "testuser" "asdf" := clock 1%nat ]} |};
               clock_reads := 3;
               probes := [the_probe "notfound" "asdf" (initial_World urlStr);
                          the_probe "testuser" "asdf" (initial_World urlStr)];
               logged := [] |})).
  { subst r2 validate. rewrite E1. simpl.
    rewrite (Validate_miss_denied _ _ _ _ StatusUnauthorized);
      [reflexivity| |reflexivity|discriminate].
    unfold seen_at. simpl.
    rewrite lookup_map_small by (rewrite map_size_singleton; lia).
    rewrite lookup_singleton_ne by discriminate. exact H2. }
  assert (E3 : r3 = (Ret true,
            {| h := {| url := urlStr;
                       cache_m := Some {[ cache_key "testuser" "asdf" := clock 1%nat ]} |};
               clock_reads := 4;
               probes := [the_probe "notfound" "asdf" (initial_World urlStr);
                          the_probe "testuser" "asdf" (initial_World urlStr)];
               logged := [] |})).
  { subst r3 validate. rewrite E2. simpl.
    rewrite Validate_hit; [reflexivity|].
    unfold seen_at. simpl.
    rewrite lookup_map_small by (rewrite map_size_singleton; lia).
    rewrite lookup_singleton_eq. exact H3. }
  rewrite E1, E2, E3. simpl.
  repeat split; try reflexivity.
  - intros transport user password w. apply Validate_false_not_cached.
  - intros transport user password w. apply Validate_true_cached.
Qed.

(** C6 on a clock that starts at the Unix epoch and advances one second
    per reading. *)
Lemma TestHtpasswdProxy_scenario_witness :
  let validate := Validate (ticking 0 Second) test_server in
  let r1 := validate "testuser" "asdf" (initial_World "http://127.0.0.1:8080/") in
  let r2 := validate "notfound" "asdf" (snd r1) in
  let r3 := validate "testuser" "asdf" (snd r2) in
  fst r1 = Ret true /\ fst r2 = Ret false /\ fst r3 = Ret true /\
  length (probes (snd r3)) = 2%nat.
Proof.
  destruct (TestHtpasswdProxy_scenario (ticking 0 Second) "http://127.0.0.1:8080/")
    as ((R1 & _) & (R2 & _) & (R3 & P3) & _).
  - vm_compute. discriminate.
  - vm_compute. discriminate.
  - vm_compute. reflexivity.
  - repeat split; assumption.
Defined.

(** Writing to the nil map panics. *)
Lemma putValidateCache_nil_map (clock : nat -> Time) (user password urlStr : string) :
  fst (putValidateCache clock user password (initial_World urlStr))
    = Panic AssignmentToNilMap.
Proof. reflexivity. Qed.


(** The bound of 101 entries is attained: a cache of 100 entries and one
    more accepted pair. *)
Lemma Validate_cache_reaches_101 :
  exists m,
    cache_m (h (snd (Validate (ticking 0 1) test_server "testuser" "asdf"
                       (world_with (numbered_cache 100 0))))) = Some m /\
    size m = 101%nat.
Proof. eexists. split; [reflexivity|]. vm_compute. reflexivity. Qed.

End HtpasswdProps.

(** * Properties of the request dispatcher *)

Module ProxyProps.
Import GoTime GoStrings Proxy Reading ProxyFixtures.

(** ** Strings *)

Lemma cut_Some (sep : ascii) (s before after : string) :
  cut sep s = Some (before, after) <->
  s = before +:+ String sep after /\ contains sep before = false.
Proof.
  revert before. induction s as [|c s IH]; intros before; simpl.
  - split; [discriminate|]. intros [H _]. destruct before; discriminate.
  - destruct (Ascii.eqb_spec c sep) as [->|Hne].
    + split.
      * intros [= <- <-]. split; reflexivity.
      * intros [H Hb]. destruct before as [|d before]; simpl in *.
        -- injection H as ->. reflexivity.
        -- injection H as <- _. rewrite Ascii.eqb_refl in Hb. discriminate.
    + destruct (cut sep s) as [[b a]|] eqn:E.
      * split.
        -- intros [= <- <-]. destruct (proj1 (IH b) eq_refl) as [-> Hb].
           simpl. split; [reflexivity|].
           destruct (Ascii.eqb_spec c sep); [contradiction|exact Hb].
        -- intros [H Hb]. destruct before as [|d before]; simpl in *.
           ++ injection H as ? _. contradiction.
           ++ injection H as <- H. apply orb_false_iff in Hb as [_ Hb].
              pose proof (proj2 (IH before) (conj H Hb)) as [= -> ->]. reflexivity.
      * split; [discriminate|].
        intros [H Hb]. destruct before as [|d before]; simpl in *.
        -- injection H as ? _. contradiction.
        -- injection H as <- H. apply orb_false_iff in Hb as [_ Hb].
           pose proof (proj2 (IH before) (conj H Hb)). discriminate.
Qed.

Lemma append_inj_r (a b c : string) : a +:+ b = a +:+ c -> b = c.
Proof. induction a; simpl; [auto|]. intros [= H]. auto. Qed.

(** ** GetLoginURL *)

(** What [GetLoginURL] builds: the parameters of the authorization URL
    hold [state], equal to the requested path, exactly when that path
    starts with a slash; they always hold redirect_uri,
    approval_prompt=force, scope, client_id and response_type=code; and
    the URL is the provider's login URL, a question mark, and these
    parameters escaped, sorted by key and joined by ampersands. *)
Theorem GetLoginURL_state_and_params
    (X : Externals) (p : OauthProxy X) (host redirect : string) :
  let params := login_params X p host redirect in
  GoURL.Has "state" params = HasPrefix redirect "/" /\
  GoURL.Get "state" params = (if HasPrefix redirect "/" then redirect else EmptyString) /\
  GoURL.Get "redirect_uri" params = GetRedirectUrl X p host /\
  GoURL.Get "approval_prompt" params = "force" /\
  GoURL.Get "scope" params = oauthScope p /\
  GoURL.Get "client_id" params = clientID p /\
  GoURL.Get "response_type" params = "code" /\
  GetLoginURL X p host redirect =
    URL_String X (oauthLoginUrl p) +:+ "?" +:+
    String.concat "&"
      (["approval_prompt=force";
        "client_id=" +:+ GoURL.QueryEscape (clientID p);
        "redirect_uri=" +:+ GoURL.QueryEscape (GetRedirectUrl X p host);
        "response_type=code";
        "scope=" +:+ GoURL.QueryEscape (oauthScope p)]
       ++ (if HasPrefix redirect "/"
           then ["state=" +:+ GoURL.QueryEscape redirect] else [])).
Proof.
  unfold GetLoginURL, login_params.
  generalize (GetRedirectUrl X p host) as redirect_uri. intros redirect_uri.
  destruct (HasPrefix redirect "/"); cbn; repeat split; reflexivity.
Qed.

(** C2 (the code departs from the claim): the guard of [GetLoginURL]
    tests for one leading slash only.  A network-path reference names a
    foreign host, is no same-site relative path, and yet is sent as
    [state]. *)
Lemma state_carries_network_path_reference :
  let p := fixture_proxy 0 (168 * Hour) 0 false false [] in
  let params := login_params (fixture_externals 0) p "proxy.example.com"
                  "//evil.example.com/" in
  same_site_relative_path "//evil.example.com/" = false /\
  GoURL.Has "state" params = true /\
  GoURL.Get "state" params = "//evil.example.com/" /\
  ~ (forall redirect,
       GoURL.Has "state" (login_params (fixture_externals 0) p "proxy.example.com" redirect)
       = same_site_relative_path redirect).
Proof.
  repeat split; try reflexivity.
  intros H. specialize (H "//evil.example.com/"). vm_compute in H. discriminate.
Qed.

(** ** CheckBasicAuth *)

Lemma cut_Basic (enc : string) : cut " " ("Basic " +:+ enc) = Some ("Basic", enc).
Proof. reflexivity. Qed.

Lemma cut_colon (user password : string) :
  contains ":" user = false ->
  cut ":" (user +:+ ":" +:+ password) = Some (user, password).
Proof. intros H. apply cut_Some. split; [reflexivity|exact H]. Qed.

Lemma basic_credentials_cut (hd user password : string) :
  basic_credentials hd user password <->
  exists enc b, cut " " hd = Some ("Basic", enc) /\
                Base64.DecodeString enc = Some b /\
                cut ":" b = Some (user, password).
Proof.
  split.
  - intros (enc & -> & Hd & Hc). exists enc, (user +:+ ":" +:+ password).
    split; [apply cut_Basic|]. split; [exact Hd|]. apply cut_colon, Hc.
  - intros (enc & b & H1 & H2 & H3).
    apply cut_Some in H1 as [-> _]. apply cut_Some in H3 as [-> Hc].
    exists enc. split; [reflexivity|]. split; [exact H2|exact Hc].
Qed.

Lemma basic_credentials_unique (hd u1 p1 u2 p2 : string) :
  basic_credentials hd u1 p1 -> basic_credentials hd u2 p2 -> u1 = u2 /\ p1 = p2.
Proof.
  intros H1 H2.
  apply basic_credentials_cut in H1 as (e1 & b1 & A1 & B1 & C1).
  apply basic_credentials_cut in H2 as (e2 & b2 & A2 & B2 & C2).
  rewrite A1 in A2. injection A2 as <-.
  rewrite B1 in B2. injection B2 as <-.
  rewrite C1 in C2. injection C2 as <- <-. split; reflexivity.
Qed.

(** What [CheckBasicAuth] does with a validator configured. *)
Lemma CheckBasicAuth_cases
    (X : Externals) (p : OauthProxy X) (req : Request) (n : nat)
    (validate : string -> string -> bool) :
  HtpasswdValidator p = Some validate ->
  (exists user password,
     basic_credentials (Header_Get (Header req) "Authorization") user password /\
     CheckBasicAuth X p req n =
       if validate user password
       then ((user, true), n,
             [CallHtpasswdValidator user password; LogPrintf (basic_auth_line X user)])
       else ((EmptyString, false), n, [CallHtpasswdValidator user password]))
  \/
  ((forall user password,
      ~ basic_credentials (Header_Get (Header req) "Authorization") user password) /\
   CheckBasicAuth X p req n = ((EmptyString, false), n, [])).
Proof.
  intros Hv. unfold CheckBasicAuth. rewrite Hv. unfold SplitN2.
  set (hd := Header_Get (Header req) "Authorization").
  destruct (cut " " hd) as [[s0 s1]|] eqn:E1.
  - destruct (String.eqb_spec s0 "Basic") as [->|Hne]; simpl negb; cbv iota.
    + destruct (Base64.DecodeString s1) as [b|] eqn:E2.
      * destruct (cut ":" b) as [[user password]|] eqn:E3.
        -- left. exists user, password. split.
           ++ apply basic_credentials_cut. eauto.
           ++ unfold bind, emit, log_Printf, ret, basic_auth_line.
              destruct (validate user password); reflexivity.
        -- right. split; [|reflexivity].
           intros user password H.
           apply basic_credentials_cut in H as (e & b' & A & B & C).
           rewrite E1 in A. injection A as <-.
           rewrite E2 in B. injection B as <-. congruence.
      * right. split; [|reflexivity].
        intros user password H.
        apply basic_credentials_cut in H as (e & b' & A & B & C).
        rewrite E1 in A. injection A as <-. congruence.
    + right. split; [|reflexivity].
      intros user password H.
      apply basic_credentials_cut in H as (e & b' & A & B & C). congruence.
  - right. split; [|reflexivity].
    intros user password H.
    apply basic_credentials_cut in H as (e & b' & A & B & C). congruence.
Qed.

(** C10: [CheckBasicAuth] reads no clock.  It calls the delegated
    validator, with [user] and [password], only when a validator is
    configured and the Authorization header is [Basic], a space and the
    standard base64 of a text whose first colon separates [user] from
    [password] (so the password keeps its own colons).  For such a header
    it calls the validator once with exactly that pair, and returns the
    user and [true] when the pair is accepted (logging it), the empty user
    and [false] with no further effect when it is refused.  Without a
    validator, or with any other header, it returns the empty user and
    [false] and has no effect at all. *)
Theorem CheckBasicAuth_validator_calls
    (X : Externals) (p : OauthProxy X) (req : Request) (n : nat) :
  let hd := Header_Get (Header req) "Authorization" in
  let out := CheckBasicAuth X p req n in
  reads_of out = n /\
  (forall user password,
     In (CallHtpasswdValidator user password) (events_of out) ->
     is_Some (HtpasswdValidator p) /\ basic_credentials hd user password) /\
  (forall validate user password,
     HtpasswdValidator p = Some validate ->
     basic_credentials hd user password ->
     out = if validate user password
           then ((user, true), n,
                 [CallHtpasswdValidator user password;
                  LogPrintf (basic_auth_line X user)])
           else ((EmptyString, false), n, [CallHtpasswdValidator user password])) /\
  ((HtpasswdValidator p = None \/ forall user password, ~ basic_credentials hd user password) ->
   out = ((EmptyString, false), n, [])).
Proof.
  intros hd out.
  destruct (HtpasswdValidator p) as [validate|] eqn:Hv.
  - destruct (CheckBasicAuth_cases X p req n validate Hv)
      as [(u & pw & Hwf & Hout) | (Hnone & Hout)]; fold hd in Hwf || fold hd in Hnone;
      subst out; rewrite Hout.
    + split; [destruct (validate u pw); reflexivity|].
      split; [|split].
      * intros user password Hin. split; [eauto|].
        assert (CallHtpasswdValidator user password = CallHtpasswdValidator u pw) as [= -> ->].
        { destruct (validate u pw); simpl in Hin;
            destruct Hin as [H|H];
            [symmetry; exact H | destruct H as [H|[]]; discriminate
            |symmetry; exact H | contradiction]. }
        exact Hwf.
      * intros validate' user password [= <-] Hwf'.
        destruct (basic_credentials_unique _ _ _ _ _ Hwf Hwf') as [<- <-]. reflexivity.
      * intros [H|H]; [discriminate|]. exfalso. exact (H u pw Hwf).
    + split; [reflexivity|]. split; [|split].
      * intros user password Hin. simpl in Hin. contradiction.
      * intros validate' user password _ Hwf'. exfalso. exact (Hnone _ _ Hwf').
      * reflexivity.
  - subst out. unfold CheckBasicAuth. rewrite Hv.
    split; [reflexivity|]. split; [|split].
    + intros user password Hin. simpl in Hin. contradiction.
    + intros validate' user password [=].
    + reflexivity.
Qed.

(** C10 at Authorization: Basic base64(testuser:a:b:c): the validator
    receives the password a:b:c whole. *)
Lemma CheckBasicAuth_validator_calls_witness :
  let X := fixture_externals 0 in
  let p := fixture_proxy 0 (168 * Hour) 0 false false [] in
  basic_credentials (Header_Get basic_testuser "Authorization") "testuser" "a:b:c" /\
  value_of (CheckBasicAuth X p (get "/app" basic_testuser []) 0%nat) = ("testuser", true) /\
  In (CallHtpasswdValidator "testuser" "a:b:c")
     (events_of (CheckBasicAuth X p (get "/app" basic_testuser []) 0%nat)).
Proof.
  intros X p.
  assert (Hwf : basic_credentials (Header_Get basic_testuser "Authorization")
                  "testuser" "a:b:c").
  { exists (Base64.EncodeToString "testuser:a:b:c"). vm_compute. repeat split. }
  split; [exact Hwf|].
  destruct (CheckBasicAuth_validator_calls X p (get "/app" basic_testuser []) 0%nat)
    as (_ & _ & Hcall & _).
  rewrite (Hcall _ "testuser" "a:b:c" eq_refl Hwf).
  split; [reflexivity|]. simpl. left. reflexivity.
Defined.

(** ** ProcessCookie *)

Lemma Unix_gt_sufficient (a b : Time) : a >= b + Second -> (Unix a >? Unix b) = true.
Proof.
  intros H. unfold Unix, Second in *. apply Z.gtb_lt.
  assert (b / 1000000000 + 1 <= a / 1000000000); [|lia].
  replace (b / 1000000000 + 1) with ((b + 1 * 1000000000) / 1000000000)
    by (rewrite Z.div_add by lia; reflexivity).
  apply Z.div_le_mono; lia.
Qed.

Lemma Unix_gt_necessary (a b : Time) : (Unix a >? Unix b) = true -> a > b.
Proof.
  intros H. unfold Unix, Second in *. apply Z.gtb_lt in H.
  destruct (Z_le_gt_dec a b) as [Hle|]; [|assumption].
  apply (Z.div_le_mono _ _ 1000000000) in Hle; lia.
Qed.

Lemma Unix_whole_second (a b : Time) :
  b mod Second = 0 -> ((Unix a >? Unix b) = true <-> a >= b + Second).
Proof.
  intros Hb. split; [|apply Unix_gt_sufficient].
  intros H. unfold Unix, Second in *. apply Z.gtb_lt in H.
  assert (Hpos : 0 < 1000000000) by lia.
  assert (Hnz : 1000000000 <> 0) by lia.
  pose proof (Z.div_mod b 1000000000 Hnz).
  pose proof (Z.div_mod a 1000000000 Hnz).
  pose proof (Z.mod_pos_bound a 1000000000 Hpos).
  lia.
Qed.

(** C4, as the code has it: a cookie that is present, validates with the
    issue time [issuedAt] and parses.  With [CookieRefresh] zero nothing is
    re-validated and the clock is not read.  Otherwise the clock is read
    once, and the cookie is stale exactly when the Unix second of
    [now + CookieRefresh] is greater than the Unix second of
    [issuedAt + CookieExpire]: a stale cookie is re-validated by the
    [Validator] and then by the provider's [ValidateToken], and re-issued
    when both accept; a cookie that is not stale is honoured as it is.
    For the stale verdict [now + CookieRefresh > issuedAt + CookieExpire]
    is necessary and a distance of one second is sufficient, which it is
    also necessary when the expiry falls on a whole second; a cookie issued
    at [now - CookieExpire + CookieRefresh] minus one second is stale, plus
    one second it is not. *)
Theorem ProcessCookie_refresh_threshold
    (X : Externals) (clock : nat -> Time) (p : OauthProxy X) (req : Request) (n : nat)
    (c : Cookie) (value : string) (issuedAt : Time) (email user access_token : string) :
  req_Cookie req (CookieKey p) = (Some c, None) ->
  validateCookie X c (CookieSeed p) = (value, issuedAt, true) ->
  parseCookieValue X value (AesCipher p) = (email, user, access_token, None) ->
  let now := clock n in
  let stale :=
    Unix (now + CookieRefresh p) >? Unix (issuedAt + CookieExpire p) in
  (CookieRefresh p = 0 ->
     ProcessCookie X clock p req n = ((email, user, access_token, true), n, [])) /\
  (CookieRefresh p <> 0 -> stale = false ->
     ProcessCookie X clock p req n = ((email, user, access_token, true), S n, [])) /\
  (CookieRefresh p <> 0 -> stale = true ->
     ProcessCookie X clock p req n =
       if Validator p email then
         if ValidateToken (provider p) access_token then
           ((email, user, access_token, true),
            reads_of (SetCookie X clock p req value (S n)),
            CallValidator email :: CallValidateToken access_token
              :: events_of (SetCookie X clock p req value (S n)))
         else ((email, user, access_token, false), S n,
               [CallValidator email; CallValidateToken access_token])
       else ((email, user, access_token, false), S n, [CallValidator email])) /\
  (stale = true -> now + CookieRefresh p > issuedAt + CookieExpire p) /\
  (now + CookieRefresh p >= issuedAt + CookieExpire p + Second -> stale = true) /\
  ((issuedAt + CookieExpire p) mod Second = 0 ->
     (stale = true <-> now + CookieRefresh p >= issuedAt + CookieExpire p + Second)) /\
  (issuedAt = now - CookieExpire p + CookieRefresh p - Second -> stale = true) /\
  (issuedAt = now - CookieExpire p + CookieRefresh p + Second -> stale = false).
Proof.
  intros Hc Hv Hp now stale.
  unfold ProcessCookie. rewrite Hc, Hv, Hp. cbv iota beta.
  split; [|split; [|split; [|split; [|split; [|split; [|split]]]]]].
  - intros ->. reflexivity.
  - intros HR Hs. subst stale now. apply Z.eqb_neq in HR. rewrite HR. cbn [negb].
    unfold bind at 1. unfold time_Now, Add. cbv beta iota. rewrite Hs.
    reflexivity.
  - intros HR Hs. subst stale now. apply Z.eqb_neq in HR. rewrite HR. cbn [negb].
    unfold bind at 1. unfold time_Now, Add. cbv beta iota. rewrite Hs.
    unfold bind, emit, ret, reads_of, events_of. cbn [fst snd app].
    destruct (Validator p email); [|reflexivity].
    destruct (ValidateToken (provider p) access_token); [|reflexivity].
    destruct (SetCookie X clock p req value (S n)) as [[u n'] es]. simpl.
    rewrite app_nil_r. reflexivity.
  - apply Unix_gt_necessary.
  - apply Unix_gt_sufficient.
  - apply Unix_whole_second.
  - intros ->. apply Unix_gt_sufficient. lia.
  - intros ->. subst stale. rewrite Z.gtb_ltb. apply Z.ltb_ge.
    unfold Unix. apply Z.div_le_mono; unfold Second; lia.
Qed.

(** C4 one second inside the threshold: the cookie is re-validated and
    re-issued. *)
Lemma ProcessCookie_refresh_threshold_witness :
  let E := 3600 * Second in
  let R := 600 * Second in
  let now := 5000 * Second in
  let X := fixture_externals (now - E + R - Second) in
  let p := fixture_proxy (now - E + R - Second) E R false false [] in
  let req := get "/app" ∅ [session_cookie "user@example.com"] in
  value_of (ProcessCookie X (fun _ => now) p req 0%nat)
    = ("user@example.com", "user@example.com", "token-of-user@example.com", true) /\
  In (CallValidator "user@example.com")
     (events_of (ProcessCookie X (fun _ => now) p req 0%nat)).
Proof.
  intros E R now X p req.
  destruct (ProcessCookie_refresh_threshold X (fun _ => now) p req 0%nat
              (session_cookie "user@example.com") "user@example.com"
              (now - E + R - Second)
              "user@example.com" "user@example.com" "token-of-user@example.com"
              eq_refl eq_refl eq_refl)
    as (_ & _ & Hstale & _ & _ & _ & Hbefore & _).
  rewrite Hstale.
  - split; [reflexivity|]. left. reflexivity.
  - vm_compute. discriminate.
  - apply Hbefore. reflexivity.
Defined.

(** C4 as worded fails: half a second past the threshold the policy of
    the specification calls the session stale, yet [ProcessCookie]
    honours the cookie without re-validation. *)
Lemma ProcessCookie_not_stale_within_the_second :
  let E := 3600 * Second in
  let R := 600 * Second in
  let issuedAt := 1700000000 * Second in
  let now := issuedAt + 3000 * Second + 500000000 in
  let X := fixture_externals issuedAt in
  let p := fixture_proxy issuedAt E R false false [] in
  let req := get "/app" ∅ [session_cookie "user@example.com"] in
  stale_by_policy now issuedAt E R = true /\
  ProcessCookie X (fun _ => now) p req 0%nat
    = (("user@example.com", "user@example.com", "token-of-user@example.com", true),
       1%nat, []).
Proof. split; vm_compute; reflexivity. Qed.

(** ** ServeHTTP *)

Lemma only_ret {A} (P : event -> bool) (a : A) : only P (ret a).
Proof. intros n. reflexivity. Qed.

Lemma only_emit (P : event -> bool) (e : event) : P e = true -> only P (emit e).
Proof. intros H n. unfold emit, events_of. simpl. rewrite H. reflexivity. Qed.

Lemma only_time_Now (P : event -> bool) (clock : nat -> Time) : only P (time_Now clock).
Proof. intros n. reflexivity. Qed.

Lemma only_bind {A B} (P : event -> bool) (c : M A) (k : A -> M B) :
  only P c -> (forall a, only P (k a)) -> only P (bind c k).
Proof.
  intros Hc Hk n. unfold bind, events_of.
  specialize (Hc n). unfold events_of in Hc.
  destruct (c n) as [[a n1] es1]. specialize (Hk a n1). unfold events_of in Hk.
  destruct (k a n1) as [[b n2] es2]. simpl in *.
  rewrite forallb_app, Hc, Hk. reflexivity.
Qed.

Ltac only_step :=
  match goal with
  | |- only _ (ret _) => apply only_ret
  | |- only _ (emit _) => apply only_emit; reflexivity
  | |- only _ (time_Now _) => apply only_time_Now
  | |- only _ (bind _ _) => apply only_bind; [|intros]
  | |- only _ (match ?x with _ => _ end) => destruct x
  end.

Ltac only_run :=
  unfold ProcessCookie, CheckBasicAuth, ManualSignIn,
    SignInPage, ErrorPage, ClearCookie, SetCookie, MakeCookie, redeemCode,
    RobotsTxt, PingPage, log_Printf;
  repeat only_step.

Lemma ProcessCookie_no_htpasswd_call
    (X : Externals) (clock : nat -> Time) (p : OauthProxy X) (req : Request) :
  only (fun e => negb (is_htpasswd_call e)) (ProcessCookie X clock p req).
Proof. only_run. Qed.

Lemma ProcessCookie_no_forward
    (X : Externals) (clock : nat -> Time) (p : OauthProxy X) (req : Request) :
  only (fun e => negb (is_forward e)) (ProcessCookie X clock p req).
Proof. only_run. Qed.

Lemma CheckBasicAuth_no_forward
    (X : Externals) (p : OauthProxy X) (req : Request) :
  only (fun e => negb (is_forward e)) (CheckBasicAuth X p req).
Proof. only_run. Qed.

Lemma SignInPage_no_forward
    (X : Externals) (clock : nat -> Time) (p : OauthProxy X) (req : Request) (code : Z) :
  only (fun e => negb (is_forward e)) (SignInPage X clock p req code).
Proof. only_run. Qed.

Lemma bind_run {A B} (c : M A) (k : A -> M B) (n : nat) :
  bind c k n =
    (value_of (k (value_of (c n)) (reads_of (c n))),
     reads_of (k (value_of (c n)) (reads_of (c n))),
     events_of (c n) ++ events_of (k (value_of (c n)) (reads_of (c n)))).
Proof.
  unfold bind, value_of, reads_of, events_of.
  destruct (c n) as [[a n1] es1]. simpl.
  destruct (k a n1) as [[b n2] es2]. reflexivity.
Qed.

Lemma no_forward_existsb (es : list event) :
  forallb (fun e => negb (is_forward e)) es = true -> existsb is_forward es = false.
Proof.
  induction es as [|e es IH]; simpl; [reflexivity|].
  intros H. apply andb_true_iff in H as [He Hes].
  apply negb_true_iff in He. rewrite He. simpl. auto.
Qed.

Lemma Header_Get_set_other (req : Request) (key other : string) (values : list string) :
  key <> other ->
  Header_Get (Header (set_Header req key values)) other = Header_Get (Header req) other.
Proof.
  intros Hne. unfold Header_Get, set_Header. simpl.
  rewrite lookup_insert_ne by exact Hne. reflexivity.
Qed.

(** A request that no fixed path and no skip-auth pattern takes: the
    session cookie, then Basic-Auth, then the sign-in page or the
    router. *)
Lemma ServeHTTP_unrouted
    (X : Externals) (clock : nat -> Time) (p : OauthProxy X) (req : Request) :
  ~ diagnostic_path (Path req) ->
  skip_auth X (compiledRegex p) (Path req) = false ->
  ~ oauth_flow_path (Path req) ->
  ServeHTTP X clock p req =
    (let* '(email, user, access_token, ok) := ProcessCookie X clock p req in
     let* '(user, ok) := (if negb ok then CheckBasicAuth X p req else ret (user, ok)) in
     if negb ok then SignInPage X clock p req 403
     else
       run emit (SetResponseHeader "GAP-Auth"
                   (if String.eqb email "" then user else email)) in
       emit (ServeMux (forwarded_request X p req user email access_token))).
Proof.
  intros Hd Hs Ho. unfold diagnostic_path, oauth_flow_path in *.
  unfold ServeHTTP. cbv zeta.
  destruct (String.eqb_spec (Path req) robotsPath); [tauto|].
  destruct (String.eqb_spec (Path req) pingPath); [tauto|].
  rewrite Hs.
  destruct (String.eqb_spec (Path req) signInPath); [tauto|].
  destruct (String.eqb_spec (Path req) oauthStartPath); [tauto|].
  destruct (String.eqb_spec (Path req) oauthCallbackPath); [tauto|].
  reflexivity.
Qed.

(** The sign-in page: the session cookie is cleared, the status is
    written, the template is rendered. *)
Lemma SignInPage_events
    (X : Externals) (clock : nat -> Time) (p : OauthProxy X) (req : Request)
    (code : Z) (n : nat) :
  exists warnings c,
    events_of (SignInPage X clock p req code n) =
      warnings ++
      [HttpSetCookie c; WriteHeader code;
       ExecuteSignInTemplate (ProviderName (provider p)) (SignInMessage p)
         (displayCustomLoginForm X p)
         (if String.eqb (RequestURI req) signInPath then "/" else RequestURI req)
         (VERSION X)] /\
    Value c = EmptyString /\ Name c = CookieKey p /\
    forallb is_log warnings = true.
Proof.
  unfold SignInPage, ClearCookie, MakeCookie, log_Printf, time_Now, bind, emit, ret,
    events_of.
  destruct (SplitHostPort X (Host req)) as [[host port] [e|]];
    destruct (negb (String.eqb (CookieDomain p) "")); simpl;
    try (eexists [], _; simpl; repeat split; reflexivity);
    match goal with
    | |- context [if ?b then _ else _] => destruct b
    end; simpl;
    first [ eexists [], _; simpl; repeat split; reflexivity
          | eexists [_], _; simpl; repeat split; reflexivity ].
Qed.

(** C8: a request that no fixed path and no skip-auth pattern takes,
    whose session cookie is not accepted and whose Basic-Auth fallback
    fails: after the effects of these two checks, [ServeHTTP] clears the
    cookie, writes the status 403 and renders the sign-in page; it does not
    hand the request to the router. *)
Theorem ServeHTTP_denied
    (X : Externals) (clock : nat -> Time) (p : OauthProxy X) (req : Request) (n : nat) :
  ~ diagnostic_path (Path req) ->
  skip_auth X (compiledRegex p) (Path req) = false ->
  ~ oauth_flow_path (Path req) ->
  let pc := ProcessCookie X clock p req n in
  let ba := CheckBasicAuth X p req (reads_of pc) in
  snd (value_of pc) = false ->
  snd (value_of ba) = false ->
  exists warnings c,
    events_of (ServeHTTP X clock p req n) =
      events_of pc ++ events_of ba ++ warnings ++
      [HttpSetCookie c; WriteHeader 403;
       ExecuteSignInTemplate (ProviderName (provider p)) (SignInMessage p)
         (displayCustomLoginForm X p)
         (if String.eqb (RequestURI req) signInPath then "/" else RequestURI req)
         (VERSION X)] /\
    Value c = EmptyString /\ Name c = CookieKey p /\
    forallb is_log warnings = true /\
    existsb is_forward (events_of (ServeHTTP X clock p req n)) = false.
Proof.
  intros Hd Hs Ho pc ba Hpc Hba.
  rewrite (ServeHTTP_unrouted X clock p req Hd Hs Ho).
  rewrite bind_run. fold pc.
  destruct (value_of pc) as [[[email user] access_token] ok] eqn:Epc.
  simpl in Hpc. subst ok. cbn [negb]. cbv beta iota.
  rewrite bind_run. fold ba.
  destruct (value_of ba) as [user' ok'] eqn:Eba.
  simpl in Hba. subst ok'. cbn [negb]. cbv beta iota.
  destruct (SignInPage_events X clock p req 403 (reads_of ba))
    as (warnings & c & Hpage & Hv & Hn & Hw).
  exists warnings, c. cbn [events_of snd]. fold (events_of pc). fold (events_of ba).
  change (snd (SignInPage X clock p req 403 (reads_of ba)))
    with (events_of (SignInPage X clock p req 403 (reads_of ba))).
  rewrite Hpage. repeat split; try assumption.
  apply no_forward_existsb. rewrite !forallb_app.
  unfold ba, pc.
  rewrite (ProcessCookie_no_forward X clock p req n).
  rewrite (CheckBasicAuth_no_forward X p req _).
  simpl. rewrite andb_true_r.
  clear -Hw. induction warnings as [|e ws IH]; simpl in *; [reflexivity|].
  apply andb_true_iff in Hw as [He Hw]. destruct e; try discriminate. simpl. auto.
Qed.

(** C8 for a request without cookie and without Authorization header. *)
Lemma ServeHTTP_denied_witness :
  let X := fixture_externals 0 in
  let clock := fun _ : nat => 1000 * Second in
  let p := fixture_proxy 0 (168 * Hour) 0 true true [] in
  let req := get "/app" ∅ [] in
  exists warnings c,
    events_of (ServeHTTP X clock p req 0%nat) =
      events_of (ProcessCookie X clock p req 0%nat) ++
      events_of (CheckBasicAuth X p req (reads_of (ProcessCookie X clock p req 0%nat))) ++
      warnings ++
      [HttpSetCookie c; WriteHeader 403;
       ExecuteSignInTemplate "Google" "" false "/app" "dev"] /\
    Value c = EmptyString /\ Name c = "_oauthproxy" /\
    forallb is_log warnings = true /\
    existsb is_forward (events_of (ServeHTTP X clock p req 0%nat)) = false.
Proof.
  intros X clock p req.
  apply (ServeHTTP_denied X clock p req 0%nat).
  - intros [H|H]; discriminate H.
  - reflexivity.
  - intros [H|[H|H]]; discriminate H.
  - reflexivity.
  - reflexivity.
Defined.

(** ** The forwarded request *)

Lemma Header_set_Header (req : Request) (key : string) (values : list string) :
  Header (set_Header req key values) = <[key := values]> (Header req).
Proof. reflexivity. Qed.

Lemma forwarded_request_headers
    (X : Externals) (p : OauthProxy X) (req : Request) (user email access_token : string) :
  let fwd := forwarded_request X p req user email access_token in
  (PassBasicAuth p = true ->
     Header fwd !! "X-Forwarded-User" = Some [user] /\
     Header fwd !! "X-Forwarded-Email" = Some [email] /\
     Header fwd !! "Authorization"
       = Some ["Basic " +:+ Base64.EncodeToString (user +:+ ":")]) /\
  (PassAccessToken p = true ->
     Header fwd !! "X-Forwarded-Access-Token" = Some [access_token]) /\
  (PassBasicAuth p = false ->
     Header fwd !! "X-Forwarded-User" = Header req !! "X-Forwarded-User" /\
     Header fwd !! "X-Forwarded-Email" = Header req !! "X-Forwarded-Email") /\
  (PassAccessToken p = false ->
     Header fwd !! "X-Forwarded-Access-Token"
       = Header req !! "X-Forwarded-Access-Token").
Proof.
  unfold forwarded_request, SetBasicAuth.
  generalize (PassBasicAuth p) (PassAccessToken p).
  intros [] []; rewrite ?Header_set_Header;
    (split; [|split; [|split]]); intros Hflag; try discriminate Hflag;
    repeat match goal with |- _ /\ _ => split end;
    repeat (rewrite lookup_insert_ne
              by (apply (proj1 (String.eqb_neq _ _)); reflexivity));
    rewrite ?lookup_insert_eq; reflexivity.
Qed.

(** C7, as the code has it: a request that no fixed path and no
    skip-auth pattern takes and for which the session cookie or else
    Basic-Auth establishes an identity.  After the effects of these checks
    the response header GAP-Auth is set, to the email when it is not empty
    and to the user otherwise, and then the request goes to the router.
    The request carries X-Forwarded-User, X-Forwarded-Email and the
    Basic Authorization of the user when [PassBasicAuth] is set, and
    X-Forwarded-Access-Token when [PassAccessToken] is set; a header whose
    flag is not set is left as the client sent it. *)
Theorem ServeHTTP_forward
    (X : Externals) (clock : nat -> Time) (p : OauthProxy X) (req : Request) (n : nat)
    (email cookie_user access_token : string) (cookie_ok : bool) :
  ~ diagnostic_path (Path req) ->
  skip_auth X (compiledRegex p) (Path req) = false ->
  ~ oauth_flow_path (Path req) ->
  let pc := ProcessCookie X clock p req n in
  let ba := CheckBasicAuth X p req (reads_of pc) in
  value_of pc = (email, cookie_user, access_token, cookie_ok) ->
  cookie_ok = true \/ snd (value_of ba) = true ->
  let user := if cookie_ok then cookie_user else fst (value_of ba) in
  let fwd := forwarded_request X p req user email access_token in
  events_of (ServeHTTP X clock p req n) =
    events_of pc ++ (if cookie_ok then [] else events_of ba) ++
    [SetResponseHeader "GAP-Auth" (if String.eqb email "" then user else email);
     ServeMux fwd] /\
  (PassBasicAuth p = true ->
     Header fwd !! "X-Forwarded-User" = Some [user] /\
     Header fwd !! "X-Forwarded-Email" = Some [email] /\
     Header fwd !! "Authorization"
       = Some ["Basic " +:+ Base64.EncodeToString (user +:+ ":")]) /\
  (PassAccessToken p = true ->
     Header fwd !! "X-Forwarded-Access-Token" = Some [access_token]) /\
  (PassBasicAuth p = false ->
     Header fwd !! "X-Forwarded-User" = Header req !! "X-Forwarded-User" /\
     Header fwd !! "X-Forwarded-Email" = Header req !! "X-Forwarded-Email") /\
  (PassAccessToken p = false ->
     Header fwd !! "X-Forwarded-Access-Token"
       = Header req !! "X-Forwarded-Access-Token").
Proof.
  intros Hd Hs Ho pc ba Hpc Hok user fwd.
  split; [|apply forwarded_request_headers].
  rewrite (ServeHTTP_unrouted X clock p req Hd Hs Ho).
  rewrite bind_run. fold pc. rewrite Hpc. cbv beta iota.
  rewrite bind_run. cbn [events_of snd]. fold (events_of pc).
  destruct cookie_ok; cbn [negb].
  - reflexivity.
  - fold ba. destruct Hok as [Hok|Hok]; [discriminate|].
    destruct (value_of ba) as [user' ok'] eqn:Eba. simpl in Hok. subst ok'.
    cbn [negb]. subst user fwd. reflexivity.
Qed.

(** C7 with both flags set and the Basic-Auth fallback. *)
Lemma ServeHTTP_forward_witness :
  let X := fixture_externals 0 in
  let clock := fun _ : nat => 1000 * Second in
  let p := fixture_proxy 0 (168 * Hour) 0 true true [] in
  let req := get "/app" basic_testuser [] in
  let fwd := forwarded_request X p req "testuser" "" "" in
  events_of (ServeHTTP X clock p req 0%nat) =
    [LogPrintf "http: named cookie not present";
     CallHtpasswdValidator "testuser" "a:b:c";
     LogPrintf (basic_auth_line X "testuser");
     SetResponseHeader "GAP-Auth" "testuser";
     ServeMux fwd] /\
  Header fwd !! "X-Forwarded-User" = Some ["testuser"] /\
  Header fwd !! "X-Forwarded-Access-Token" = Some [EmptyString].
Proof.
  intros X clock p req fwd.
  destruct (ServeHTTP_forward X clock p req 0%nat "" "" "" false)
    as (Hev & Hbasic & Htoken & _).
  - intros [H|H]; discriminate H.
  - reflexivity.
  - intros [H|[H|H]]; discriminate H.
  - reflexivity.
  - right. reflexivity.
  - split; [exact Hev|].
    split; [apply (Hbasic eq_refl) | apply (Htoken eq_refl)].
Defined.

(** C7 as worded fails: with neither flag set the accepted request
    reaches the router as the client sent it, without the identity
    headers. *)
Lemma forwarded_without_identity_headers :
  let X := fixture_externals 0 in
  let clock := fun _ : nat => 1000 * Second in
  let p := fixture_proxy 0 (168 * Hour) 0 false false [] in
  let req := get "/app" basic_testuser [] in
  events_of (ServeHTTP X clock p req 0%nat) =
    [LogPrintf "http: named cookie not present";
     CallHtpasswdValidator "testuser" "a:b:c";
     LogPrintf (basic_auth_line X "testuser");
     SetResponseHeader "GAP-Auth" "testuser";
     ServeMux req] /\
  Header req !! "X-Forwarded-User" = None /\
  Header req !! "X-Forwarded-Email" = None /\
  Header req !! "X-Forwarded-Access-Token" = None.
Proof. repeat split. Qed.

(** ** The order of the dispatch *)

(** Settles the tests of the request path in the goal, given [H] that
    equates the path with one of the fixed paths. *)
Ltac decide_path H :=
  repeat match goal with
         | |- context [String.eqb (Path ?r) ?c] =>
             let E := fresh "E" in
             destruct (String.eqb_spec (Path r) c) as [E|E];
             [try (rewrite E in H; discriminate H)
             |try (exfalso; apply E; exact H)]
         end.

Lemma Path_with_credentials (req : Request) (cookies : list Cookie) (a : list string) :
  Path (with_credentials req cookies a) = Path req.
Proof. reflexivity. Qed.

Lemma X_Real_IP_with_credentials (req : Request) (cookies : list Cookie) (a : list string) :
  Header_Get (Header (with_credentials req cookies a)) "X-Real-IP"
    = Header_Get (Header req) "X-Real-IP".
Proof.
  unfold with_credentials.
  rewrite Header_Get_set_other
    by (apply (proj1 (String.eqb_neq _ _)); reflexivity).
  reflexivity.
Qed.

(** On the paths of the OAuth flow nothing reaches the router. *)
Lemma ServeHTTP_oauth_no_forward
    (X : Externals) (clock : nat -> Time) (p : OauthProxy X) (req : Request) :
  skip_auth X (compiledRegex p) (Path req) = false ->
  oauth_flow_path (Path req) ->
  only (fun e => negb (is_forward e)) (ServeHTTP X clock p req).
Proof.
  intros Hs [H|[H|H]]; unfold ServeHTTP; cbv zeta; rewrite Hs;
    decide_path H; only_run.
Qed.

(** On the paths of the OAuth flow neither the cookies nor the
    Authorization header are read. *)
Lemma ServeHTTP_oauth_ignores_credentials
    (X : Externals) (clock : nat -> Time) (p : OauthProxy X) (req : Request)
    (cookies : list Cookie) (a : list string) :
  skip_auth X (compiledRegex p) (Path req) = false ->
  oauth_flow_path (Path req) ->
  ServeHTTP X clock p (with_credentials req cookies a) = ServeHTTP X clock p req.
Proof.
  intros Hs [H|[H|H]]; unfold ServeHTTP; cbv zeta;
    rewrite X_Real_IP_with_credentials, !Path_with_credentials, Hs;
    decide_path H; reflexivity.
Qed.

(** A callback that carries an error is not redeemed. *)
Lemma ServeHTTP_callback_error_no_redeem
    (X : Externals) (clock : nat -> Time) (p : OauthProxy X) (req : Request) (n : nat) :
  Path req = oauthCallbackPath ->
  Form req "error" <> EmptyString ->
  existsb is_redeem (events_of (ServeHTTP X clock p req n)) = false.
Proof.
  intros H He. unfold ServeHTTP. cbv zeta. decide_path H.
  destruct (skip_auth X (compiledRegex p) (Path req)); [reflexivity|].
  destruct (ParseForm req); [reflexivity|].
  destruct (String.eqb_spec (Form req "error") ""); [contradiction|].
  reflexivity.
Qed.

(** After the fixed paths and the skip-auth patterns: the effects of the
    cookie check come first; those of Basic-Auth follow only when the
    cookie is not accepted. *)
Lemma ServeHTTP_checks
    (X : Externals) (clock : nat -> Time) (p : OauthProxy X) (req : Request) (n : nat) :
  ~ diagnostic_path (Path req) ->
  skip_auth X (compiledRegex p) (Path req) = false ->
  ~ oauth_flow_path (Path req) ->
  let pc := ProcessCookie X clock p req n in
  let ba := CheckBasicAuth X p req (reads_of pc) in
  let '(email, cookie_user, access_token, cookie_ok) := value_of pc in
  events_of (ServeHTTP X clock p req n) =
    if cookie_ok then
      events_of pc ++
      [SetResponseHeader "GAP-Auth" (if String.eqb email "" then cookie_user else email);
       ServeMux (forwarded_request X p req cookie_user email access_token)]
    else
      events_of pc ++ events_of ba ++
      (if snd (value_of ba) then
         [SetResponseHeader "GAP-Auth"
            (if String.eqb email "" then fst (value_of ba) else email);
          ServeMux (forwarded_request X p req (fst (value_of ba)) email access_token)]
       else events_of (SignInPage X clock p req 403 (reads_of ba))).
Proof.
  intros Hd Hs Ho pc ba.
  rewrite (ServeHTTP_unrouted X clock p req Hd Hs Ho).
  rewrite bind_run. fold pc.
  destruct (value_of pc) as [[[email cookie_user] access_token] cookie_ok].
  cbv beta iota. rewrite bind_run. cbn [events_of snd]. fold (events_of pc).
  destruct cookie_ok; cbn [negb]; [reflexivity|].
  fold ba. destruct (value_of ba) as [user ok]. cbn [fst snd].
  destruct ok; reflexivity.
Qed.

Lemma no_htpasswd_call_existsb (es : list event) :
  forallb (fun e => negb (is_htpasswd_call e)) es = true ->
  existsb is_htpasswd_call es = false.
Proof.
  induction es as [|e es IH]; simpl; [reflexivity|].
  intros H. apply andb_true_iff in H as [He Hes].
  apply negb_true_iff in He. rewrite He. simpl. auto.
Qed.



End ProxyProps.

(** * Further properties of the delegated validator *)

Module HtpasswdMore.
Import GoTime Htpasswd HtpasswdFixtures HtpasswdProps.

#[local] Arguments lookup_map : simpl never.

Lemma size_insert_le (m : gmap string Z) (k : string) (t : Z) :
  (size (<[k := t]> m) <= S (size m))%nat.
Proof. rewrite map_size_insert. destruct (m !! k); simpl; lia. Qed.

(** The world an accepted miss leaves, looked up again under a key equal
    to the one cached. *)
Lemma seen_at_after_accepted
    (clock : nat -> Time) (transport : nat -> Probe -> DoResult)
    (u1 p1 u2 p2 : string) (w : World) :
  cache_key u1 p1 = cache_key u2 p2 ->
  seen_at u1 p1 w + Minute <= clock (clock_reads w) ->
  transport (length (probes w)) (the_probe u1 p1 w) = respond StatusOK ->
  (size (lookup_map (cache_m (h w))) < 100)%nat ->
  seen_at u2 p2 (snd (Validate clock transport u1 p1 w)) = clock (S (clock_reads w)) /\
  clock_reads (snd (Validate clock transport u1 p1 w)) = S (S (clock_reads w)) /\
  probes (snd (Validate clock transport u1 p1 w)) = the_probe u1 p1 w :: probes w.
Proof.
  intros Hkey Hmiss Ht Hsize.
  rewrite (Validate_miss_accepted clock transport u1 p1 w Hmiss Ht).
  unfold seen_at. simpl.
  rewrite lookup_map_small.
  - rewrite Hkey, lookup_insert_eq. repeat split.
  - pose proof (size_insert_le (lookup_map (cache_m (h w))) (cache_key u1 p1)
                  (clock (S (clock_reads w)))). lia.
Qed.



(** The probes [Validate] leaves behind. *)
Lemma Validate_probes_aux
    (clock : nat -> Time) (transport : nat -> Probe -> DoResult)
    (user password : string) (w : World) :
  probes (snd (Validate clock transport user password w)) =
    if After (Add (seen_at user password w) Minute) (clock (clock_reads w))
    then probes w else the_probe user password w :: probes w.
Proof.
  unfold seen_at, the_probe. run_M.
  destruct (After _ _); simpl; [reflexivity|].
  destruct (transport _ _) as [[[code]|] [e|]]; simpl; try reflexivity;
    destruct (code =? StatusOK); reflexivity.
Qed.

(** X2: one call of [Validate] sends no probe when the lookup hits and
    exactly one probe, for the configured URL and the given pair, when it
    misses, also when it then panics.  A hit returns [true]; and [true] is
    returned only on a hit or when the endpoint answered 200. *)
Theorem Validate_probes_and_soundness
    (clock : nat -> Time) (transport : nat -> Probe -> DoResult)
    (user password : string) (w : World) :
  let out := Validate clock transport user password w in
  let hit := After (Add (seen_at user password w) Minute) (clock (clock_reads w)) in
  probes (snd out) = (if hit then probes w else the_probe user password w :: probes w) /\
  (hit = true -> fst out = Ret true) /\
  (fst out = Ret true ->
     hit = true \/
     exists e, transport (length (probes w)) (the_probe user password w)
               = {| res := Some {| StatusCode := StatusOK |}; err := e |}).
Proof.
  unfold seen_at, the_probe. run_M.
  destruct (After _ _); simpl.
  - repeat split; auto.
  - destruct (transport _ _) as [[[code]|] [e|]]; simpl.
    1, 2: destruct (Z.eqb_spec code StatusOK) as [->|Hne]; simpl;
      (split; [reflexivity|]; split; [discriminate|]); intros Hret;
      try discriminate Hret; right; eauto.
    all: (split; [reflexivity|]; split; [discriminate|]); intros Hret;
      discriminate Hret.
Qed.

(** X3: the pair that becomes the 101st entry is lost at once.  With
    exactly 100 entries and none for the pair, an accepted validation
    stores the pair as the 101st entry; the next lookup of that very pair
    finds more than 100 entries, empties the cache and misses, so the next
    [Validate] probes again. *)
Theorem Validate_101st_entry_lost
    (clock : nat -> Time) (transport : nat -> Probe -> DoResult)
    (user password : string) (w : World) (m : gmap string Time) :
  cache_m (h w) = Some m ->
  size m = 100%nat ->
  m !! cache_key user password = None ->
  zero_Time + Minute <= clock (clock_reads w) ->
  transport (length (probes w)) (the_probe user password w) = respond StatusOK ->
  zero_Time + Minute <= clock (S (S (clock_reads w))) ->
  let w1 := snd (Validate clock transport user password w) in
  fst (Validate clock transport user password w) = Ret true /\
  cache_m (h w1) = Some (<[cache_key user password := clock (S (clock_reads w))]> m) /\
  size (<[cache_key user password := clock (S (clock_reads w))]> m) = 101%nat /\
  fst (cachedValidate clock user password w1) = Ret false /\
  cache_m (h (snd (cachedValidate clock user password w1))) = Some ∅ /\
  probes (snd (Validate clock transport user password w1))
    = the_probe user password w1 :: the_probe user password w :: probes w.
Proof.
  intros Hm Hsize Hnone Hclock Ht Hclock2 w1.
  assert (Hlm : lookup_map (cache_m (h w)) = m)
    by (rewrite Hm; apply lookup_map_small; lia).
  assert (Hmiss : seen_at user password w + Minute <= clock (clock_reads w)).
  { unfold seen_at. rewrite Hlm. rewrite Hnone. exact Hclock. }
  pose proof (Validate_miss_accepted clock transport user password w Hmiss Ht) as Hv.
  rewrite Hlm in Hv. subst w1. rewrite Hv. cbn [fst snd h cache_m].
  assert (Hbig : size (<[cache_key user password := clock (S (clock_reads w))]> m) = 101%nat)
    by (rewrite map_size_insert_None by exact Hnone; lia).
  split; [reflexivity|]. split; [reflexivity|]. split; [exact Hbig|].
  rewrite cachedValidate_eq. cbn [fst snd h cache_m clock_reads].
  rewrite lookup_map_large by lia.
  rewrite lookup_empty. cbn [default].
  assert (Hafter : After (Add zero_Time Minute) (clock (S (S (clock_reads w)))) = false)
    by (apply After_false_iff; exact Hclock2).
  rewrite Hafter. split; [reflexivity|]. split; [reflexivity|].
  rewrite Validate_probes_aux. unfold seen_at. cbn [h cache_m clock_reads probes].
  rewrite lookup_map_large by lia. rewrite lookup_empty. cbn [default].
  rewrite Hafter. reflexivity.
Qed.

(** X3 on a cache of 100 entries and the test server. *)
Lemma Validate_101st_entry_lost_witness :
  let clock := ticking 0 Second in
  let w := world_with (numbered_cache 100 0) in
  let w1 := snd (Validate clock test_server "testuser" "asdf" w) in
  fst (Validate clock test_server "testuser" "asdf" w) = Ret true /\
  fst (cachedValidate clock "testuser" "asdf" w1) = Ret false /\
  cache_m (h (snd (cachedValidate clock "testuser" "asdf" w1))) = Some ∅.
Proof.
  intros clock w w1.
  destruct (Validate_101st_entry_lost clock test_server "testuser" "asdf" w
              (numbered_cache 100 0))
    as (Hret & _ & _ & Hmiss & Hreset & _).
  - reflexivity.
  - vm_compute. reflexivity.
  - vm_compute. reflexivity.
  - vm_compute. discriminate.
  - reflexivity.
  - vm_compute. discriminate.
  - repeat split; assumption.
Defined.

(** X4: while the cache holds at most 100 entries, [Validate] for one
    pair leaves the entry of every other key as it was, whatever the
    outcome of the call. *)
Theorem Validate_keeps_other_entries
    (clock : nat -> Time) (transport : nat -> Probe -> DoResult)
    (user password other : string) (w : World) (m : gmap string Time) :
  cache_m (h w) = Some m ->
  (size m <= 100)%nat ->
  other <> cache_key user password ->
  exists m',
    cache_m (h (snd (Validate clock transport user password w))) = Some m' /\
    m' !! other = m !! other.
Proof.
  intros Hm Hsize Hne.
  destruct (Validate_cache clock transport user password w) as (m' & Hm' & Hcase).
  exists m'. split; [exact Hm'|].
  rewrite Hm, (lookup_map_small m Hsize) in Hcase.
  destruct Hcase as [-> | [t ->]]; [reflexivity|].
  apply lookup_insert_ne. congruence.
Qed.

(** X4 for an entry of the numbered cache while testuser is validated. *)
Lemma Validate_keeps_other_entries_witness :
  exists m',
    cache_m (h (snd (Validate (ticking 0 Second) test_server "testuser" "asdf"
                       (world_with (numbered_cache 3 0))))) = Some m' /\
    m' !! cache_key "user1" "secret" = numbered_cache 3 0 !! cache_key "user1" "secret".
Proof.
  apply (Validate_keeps_other_entries (ticking 0 Second) test_server
           "testuser" "asdf" (cache_key "user1" "secret")
           (world_with (numbered_cache 3 0)) (numbered_cache 3 0)).
  - reflexivity.
  - vm_compute. lia.
  - discriminate.
Defined.



(** X17: [Validate] panics exactly when the lookup misses and the
    transport returns a nil response, and then on the nil response, after
    the probe was sent; in every other case it returns.  It never panics
    on the cache map. *)
Theorem Validate_panics_iff
    (clock : nat -> Time) (transport : nat -> Probe -> DoResult)
    (user password : string) (w : World) :
  let out := Validate clock transport user password w in
  let hit := After (Add (seen_at user password w) Minute) (clock (clock_reads w)) in
  let answer := transport (length (probes w)) (the_probe user password w) in
  ((exists q, fst out = Panic q) <-> hit = false /\ res answer = None) /\
  (forall q, fst out = Panic q -> q = NilPointerDereference) /\
  (hit = false -> forall r, res answer = Some r ->
     fst out = Ret (StatusCode r =? StatusOK)).
Proof.
  unfold seen_at, the_probe. run_M.
  destruct (After _ _); simpl.
  - split; [|split].
    + split; [intros [q Hq]; discriminate Hq | intros [Hh _]; discriminate Hh].
    + intros q Hq. discriminate Hq.
    + intros Hh. discriminate Hh.
  - destruct (transport _ _) as [[r|] [e|]]; simpl.
    1, 2: destruct (StatusCode r =? StatusOK) eqn:E; simpl;
      (split; [|split];
       [ split; [intros [q Hq]; discriminate Hq | intros [_ Hn]; discriminate Hn]
       | intros q Hq; discriminate Hq
       | intros _ r' [= <-]; rewrite E; reflexivity ]).
    all: (split; [|split];
       [ split; [intros _; split; reflexivity | intros _; eauto]
       | intros q [= <-]; reflexivity
       | intros _ r' Hr; discriminate Hr ]).
Qed.

End HtpasswdMore.

(** * Further properties of the request dispatcher *)

Module ProxyMore.
Import GoTime GoStrings Proxy Reading ProxyFixtures ProxyProps.

(** ** One answer per request *)

Lemma responses_app (es1 es2 : list event) :
  responses (es1 ++ es2) = (responses es1 + responses es2)%nat.
Proof. unfold responses. rewrite List.filter_app, length_app. reflexivity. Qed.

Lemma silent_responses (es : list event) :
  forallb (fun e => negb (is_response e)) es = true -> responses es = 0%nat.
Proof.
  unfold responses. induction es as [|e es IH]; simpl; [reflexivity|].
  intros H. apply andb_true_iff in H as [He Hes].
  apply negb_true_iff in He. rewrite He. auto.
Qed.

Lemma once_emit (e : event) : is_response e = true -> responds_once (emit e).
Proof. intros H n. unfold responses, emit, events_of. simpl. rewrite H. reflexivity. Qed.

Lemma once_bind_l {A B} (c : M A) (k : A -> M B) :
  responds_once c ->
  (forall a, only (fun e => negb (is_response e)) (k a)) ->
  responds_once (bind c k).
Proof.
  intros Hc Hk n. rewrite bind_run. cbn [events_of snd].
  fold (events_of (c n)).
  change (snd (k (value_of (c n)) (reads_of (c n))))
    with (events_of (k (value_of (c n)) (reads_of (c n)))).
  rewrite responses_app, (Hc n), (silent_responses _ (Hk _ _)). reflexivity.
Qed.

Lemma once_bind_r {A B} (c : M A) (k : A -> M B) :
  only (fun e => negb (is_response e)) c ->
  (forall a, responds_once (k a)) ->
  responds_once (bind c k).
Proof.
  intros Hc Hk n. rewrite bind_run. cbn [events_of snd].
  fold (events_of (c n)).
  change (snd (k (value_of (c n)) (reads_of (c n))))
    with (events_of (k (value_of (c n)) (reads_of (c n)))).
  rewrite responses_app, (silent_responses _ (Hc n)), (Hk _ _). reflexivity.
Qed.

Ltac answers_once :=
  lazymatch goal with
  | |- responds_once (emit _) => apply once_emit; reflexivity
  | |- responds_once (bind _ _) =>
      first [ apply once_bind_r; [solve [only_run] | intros; answers_once]
            | apply once_bind_l; [answers_once | intros; solve [only_run]] ]
  | |- responds_once (match ?x with _ => _ end) => destruct x; answers_once
  | |- responds_once (ErrorPage _ _ _) => unfold ErrorPage, log_Printf; answers_once
  | |- responds_once (SignInPage _ _ _ _ _) => unfold SignInPage; answers_once
  | |- responds_once (RobotsTxt) => unfold RobotsTxt; answers_once
  | |- responds_once (PingPage) => unfold PingPage; answers_once
  end.

(** X6: [ServeHTTP] answers every request exactly once: on every path
    through it, exactly one status is written, or one redirect is sent, or
    the request is handed to the router once. *)
Theorem ServeHTTP_responds_once
    (X : Externals) (clock : nat -> Time) (p : OauthProxy X) (req : Request) (n : nat) :
  responses (events_of (ServeHTTP X clock p req n)) = 1%nat.
Proof.
  revert n. change (responds_once (ServeHTTP X clock p req)).
  unfold ServeHTTP. cbv zeta. answers_once.
Qed.

(** ** Cookies *)

Ltac made_cookie d w :=
  exists d, w;
  (split; [reflexivity|]);
  (split; [intros; first [reflexivity | congruence]|]);
  (split; [intros; first [split; reflexivity | congruence]|]);
  intros value expiration n;
  destruct (String.eqb_spec value ""); subst; reflexivity.

(** What [MakeCookie] makes of a request: the domain and the warnings
    depend on the request and the configuration only. *)
Lemma MakeCookie_run
    (X : Externals) (clock : nat -> Time) (p : OauthProxy X) (req : Request) :
  exists domain warnings,
    forallb is_log warnings = true /\
    (CookieDomain p <> EmptyString -> domain = CookieDomain p) /\
    (CookieDomain p = EmptyString ->
       warnings = [] /\
       domain = match SplitHostPort X (Host req) with
                | (host, _, None) => host
                | (_, _, Some _) => Host req
                end) /\
    forall value expiration n,
      MakeCookie X clock p req value expiration n =
        ({| Name := CookieKey p;
            Value := if String.eqb value ""
                     then EmptyString
                     else signedCookieValue X (CookieSeed p) (CookieKey p) value;
            Cookie_Path := "/"; Domain := domain;
            HttpOnly := CookieHttpOnly p; Secure := CookieSecure p;
            Expires := clock n + expiration |},
         S n, warnings).
Proof.
  unfold MakeCookie, log_Printf, time_Now, bind, emit, ret, Add.
  destruct (SplitHostPort X (Host req)) as [[host port] [e|]];
    destruct (String.eqb_spec (CookieDomain p) "") as [Hd|Hd]; cbn [negb].
  - made_cookie (Host req) (@nil event).
  - destruct (HasSuffix (Host req) (CookieDomain p)); cbn [negb].
    + made_cookie (CookieDomain p) (@nil event).
    + made_cookie (CookieDomain p)
        [LogPrintf ("Warning: request host is " +:+ Quote X (Host req)
                    +:+ " but using configured cookie domain of "
                    +:+ Quote X (CookieDomain p))].
  - made_cookie host (@nil event).
  - destruct (HasSuffix host (CookieDomain p)); cbn [negb].
    + made_cookie (CookieDomain p) (@nil event).
    + made_cookie (CookieDomain p)
        [LogPrintf ("Warning: request host is " +:+ Quote X host
                    +:+ " but using configured cookie domain of "
                    +:+ Quote X (CookieDomain p))].
Qed.

(** X7: the cookie [ClearCookie] sends replaces the one [SetCookie] sent.
    For one request both send exactly one cookie, after the same warnings
    and one clock reading each; the two cookies agree in name, path, domain
    and flags; the domain is the configured [CookieDomain] whenever one is
    configured, and otherwise the request host without its port.  The
    clearing cookie has the empty value, unsigned, and expired an hour
    before its clock reading; the setting cookie carries the signed value
    (or the empty value as it is) and expires [CookieExpire] after its
    reading. *)
Theorem SetCookie_ClearCookie_agree
    (X : Externals) (clock : nat -> Time) (p : OauthProxy X) (req : Request)
    (val : string) (n m : nat) :
  exists (set clear : Cookie) (warnings : list event),
    SetCookie X clock p req val n = (tt, S n, warnings ++ [HttpSetCookie set]) /\
    ClearCookie X clock p req m = (tt, S m, warnings ++ [HttpSetCookie clear]) /\
    forallb is_log warnings = true /\
    Name set = CookieKey p /\ Name clear = CookieKey p /\
    Cookie_Path set = "/" /\ Cookie_Path clear = "/" /\
    Domain set = Domain clear /\
    HttpOnly set = HttpOnly clear /\ Secure set = Secure clear /\
    (CookieDomain p <> EmptyString -> Domain set = CookieDomain p) /\
    (CookieDomain p = EmptyString ->
       Domain set = match SplitHostPort X (Host req) with
                    | (host, _, None) => host
                    | (_, _, Some _) => Host req
                    end) /\
    Value clear = EmptyString /\
    Expires clear = clock m - Hour /\
    Value set = (if String.eqb val "" then EmptyString
                 else signedCookieValue X (CookieSeed p) (CookieKey p) val) /\
    Expires set = clock n + CookieExpire p.
Proof.
  destruct (MakeCookie_run X clock p req) as (domain & warnings & Hw & Hd & Hnd & Hrun).
  unfold SetCookie, ClearCookie, bind, emit.
  rewrite (Hrun val (CookieExpire p) n), (Hrun "" (1 * Hour * -1) m).
  eexists _, _, warnings. cbn [Name Value Cookie_Path Domain HttpOnly Secure Expires].
  split; [reflexivity|]. split; [reflexivity|].
  split; [exact Hw|].
  repeat (split; [reflexivity|]).
  split; [exact Hd|].
  split; [intros H; apply (Hnd H)|].
  split; [reflexivity|].
  split; [cbn [Expires]; unfold Hour, Minute, Second; lia|].
  split; reflexivity.
Qed.

(** ** The session cookie: the cases that are refused *)


(** X9: a session cookie that is present but fails [validateCookie] is
    not refused outright when refresh is enabled.  With [CookieRefresh]
    zero it is refused silently.  Otherwise the staleness test runs on the
    time [validateCookie] returned, and a stale verdict sends the empty
    email to the [Validator] and the empty token to [ValidateToken]: the
    result is [ok] exactly when both accept, with an empty identity, and
    the cookie is then re-issued with the value [validateCookie]
    returned. *)
Theorem ProcessCookie_invalid_cookie
    (X : Externals) (clock : nat -> Time) (p : OauthProxy X) (req : Request) (n : nat)
    (c : Cookie) (value : string) (timestamp : Time) :
  req_Cookie req (CookieKey p) = (Some c, None) ->
  validateCookie X c (CookieSeed p) = (value, timestamp, false) ->
  let stale :=
    Unix (clock n + CookieRefresh p) >? Unix (timestamp + CookieExpire p) in
  let nobody := (EmptyString, EmptyString, EmptyString) in
  (CookieRefresh p = 0 ->
     ProcessCookie X clock p req n = ((nobody, false), n, [])) /\
  (CookieRefresh p <> 0 -> stale = false ->
     ProcessCookie X clock p req n = ((nobody, false), S n, [])) /\
  (CookieRefresh p <> 0 -> stale = true ->
     ProcessCookie X clock p req n =
       if Validator p "" then
         if ValidateToken (provider p) "" then
           ((nobody, true),
            reads_of (SetCookie X clock p req value (S n)),
            CallValidator "" :: CallValidateToken ""
              :: events_of (SetCookie X clock p req value (S n)))
         else ((nobody, false), S n, [CallValidator ""; CallValidateToken ""])
       else ((nobody, false), S n, [CallValidator ""])).
Proof.
  intros Hc Hv stale nobody. subst stale nobody.
  unfold ProcessCookie. rewrite Hc, Hv. cbv iota beta.
  split; [|split].
  - intros ->. reflexivity.
  - intros HR Hs. apply Z.eqb_neq in HR. rewrite HR. cbn [negb].
    unfold bind at 1. unfold time_Now, Add. cbv beta iota. rewrite Hs.
    reflexivity.
  - intros HR Hs. apply Z.eqb_neq in HR. rewrite HR. cbn [negb].
    unfold bind at 1. unfold time_Now, Add. cbv beta iota. rewrite Hs.
    unfold bind, emit, ret, reads_of, events_of. cbn [fst snd app].
    destruct (Validator p ""); [|reflexivity].
    destruct (ValidateToken (provider p) ""); [|reflexivity].
    destruct (SetCookie X clock p req value (S n)) as [[u n'] es]. simpl.
    rewrite app_nil_r. reflexivity.
Qed.

(** X9 with a validator that accepts every email and a provider that
    accepts every token: the cookie with the empty value does not validate,
    and the request is accepted all the same. *)
Lemma ProcessCookie_invalid_cookie_witness :
  let E := 3600 * Second in
  let R := 600 * Second in
  let X := fixture_externals zero_Time in
  let p := with_Validator (fixture_proxy zero_Time E R false false []) everybody in
  let clock := fun _ : nat => 1700000000 * Second in
  let req := get "/app" ∅ [session_cookie ""] in
  validateCookie X (session_cookie "") (CookieSeed p) = (EmptyString, zero_Time, false) /\
  value_of (ProcessCookie X clock p req 0%nat)
    = (EmptyString, EmptyString, EmptyString, true).
Proof.
  intros E R X p clock req.
  split; [reflexivity|].
  destruct (ProcessCookie_invalid_cookie X clock p req 0%nat (session_cookie "")
              EmptyString zero_Time eq_refl eq_refl) as (_ & _ & Hstale).
  rewrite Hstale.
  - reflexivity.
  - vm_compute. discriminate.
  - vm_compute. reflexivity.
Defined.

(** ** Redeeming the code *)

Lemma redeemCode_reads
    (X : Externals) (p : OauthProxy X) (host code : string) (n : nat) :
  reads_of (redeemCode X p host code n) = n.
Proof.
  unfold redeemCode, bind, emit, ret, reads_of.
  destruct (String.eqb code ""); [reflexivity|]. simpl.
  destruct (Redeem (provider p) (GetRedirectUrl X p host) code) as [[body token] [e|]];
    [reflexivity|]. simpl.
  destruct (GetEmailAddress (provider p) body token) as [email [e|]]; reflexivity.
Qed.

(** X10: [redeemCode] never calls the provider with an empty code: it
    fails with "missing code".  Otherwise it calls [Redeem] once, with the
    redirect URI of the request host; when [Redeem] fails it returns that
    error without asking for the email address; otherwise it calls
    [GetEmailAddress] once with the body and the token [Redeem] returned.
    Every failure returns the empty token and the empty email; success
    returns the token and the email.  The clock is never read. *)
Theorem redeemCode_provider_calls
    (X : Externals) (p : OauthProxy X) (host code : string) (n : nat) :
  let out := redeemCode X p host code n in
  let uri := GetRedirectUrl X p host in
  reads_of out = n /\
  (code = EmptyString ->
     out = ((EmptyString, EmptyString, Some "missing code"), n, [])) /\
  (code <> EmptyString ->
     forall body token e,
       Redeem (provider p) uri code = (body, token, Some e) ->
       out = ((EmptyString, EmptyString, Some e), n, [CallRedeem uri code])) /\
  (code <> EmptyString ->
     forall body token email err,
       Redeem (provider p) uri code = (body, token, None) ->
       GetEmailAddress (provider p) body token = (email, err) ->
       out = (match err with
              | Some e => (EmptyString, EmptyString, Some e)
              | None => (token, email, None)
              end, n, [CallRedeem uri code; CallGetEmailAddress body token])).
Proof.
  intros out uri. subst out uri.
  split; [apply redeemCode_reads|].
  unfold redeemCode, bind, emit, ret.
  split; [intros ->; reflexivity|].
  split.
  - intros Hc body token e Hr. apply String.eqb_neq in Hc. rewrite Hc. simpl.
    rewrite Hr. reflexivity.
  - intros Hc body token email err Hr He. apply String.eqb_neq in Hc. rewrite Hc. simpl.
    rewrite Hr. simpl. rewrite He. destruct err; reflexivity.
Qed.

(** X11: the redirect URI is the same in both legs of the OAuth flow.
    For requests that arrive with the same Host, the [redirect_uri] that
    [GetLoginURL] sends to the provider is the redirect URI that
    [redeemCode] passes to [Redeem]; and with a host configured in the
    redirect URL the request Host plays no part in it. *)
Theorem redirect_uri_consistent
    (X : Externals) (p : OauthProxy X) (host redirect code : string) (n : nat) :
  (forall uri c,
     In (CallRedeem uri c) (events_of (redeemCode X p host code n)) ->
     uri = GoURL.Get "redirect_uri" (login_params X p host redirect) /\ c = code) /\
  (URL_Host (redirectUrl p) <> EmptyString ->
     forall host', GetRedirectUrl X p host = GetRedirectUrl X p host').
Proof.
  split.
  - intros uri c Hin.
    assert (Hparam : GoURL.Get "redirect_uri" (login_params X p host redirect)
                     = GetRedirectUrl X p host).
    { unfold login_params. destruct (HasPrefix redirect "/"); reflexivity. }
    rewrite Hparam. clear Hparam.
    unfold redeemCode, bind, emit, ret, events_of in Hin.
    destruct (String.eqb code ""); simpl in Hin; [contradiction|].
    destruct (Redeem (provider p) (GetRedirectUrl X p host) code) as [[body token] [e|]];
      simpl in Hin.
    + destruct Hin as [[= <- <-]|[]]. split; reflexivity.
    + destruct (GetEmailAddress (provider p) body token) as [email [e|]]; simpl in Hin;
        destruct Hin as [[= <- <-]|[H|[]]]; try discriminate H; split; reflexivity.
  - intros Hhost host'. unfold GetRedirectUrl.
    destruct (String.eqb_spec (URL_Host (redirectUrl p)) ""); [contradiction|].
    reflexivity.
Qed.

(** ** The paths of the OAuth flow *)

Lemma bind_ret_l {A B} (a : A) (k : A -> M B) (n : nat) : bind (ret a) k n = k a n.
Proof. unfold bind, ret. destruct (k a n) as [[b n2] es2]. reflexivity. Qed.

(** X12: a form that does not parse ends each of the three paths of the
    OAuth flow with the 500 error page that shows the parse error, and
    with nothing else: no validator or provider is called, no cookie is
    set or cleared, the clock is not read. *)
Theorem ServeHTTP_form_error
    (X : Externals) (clock : nat -> Time) (p : OauthProxy X) (req : Request) (n : nat)
    (e : string) :
  skip_auth X (compiledRegex p) (Path req) = false ->
  oauth_flow_path (Path req) ->
  ParseForm req = Some e ->
  ServeHTTP X clock p req n =
    (tt, n, [LogPrintf ("ErrorPage 500 Internal Error " +:+ e);
             WriteHeader 500;
             ExecuteErrorTemplate "500 Internal Error" e]).
Proof.
  intros Hs [H|[H|H]] Hf; unfold ServeHTTP; cbv zeta; rewrite Hs;
    decide_path H; unfold GetRedirect; rewrite Hf; reflexivity.
Qed.

(** X12 for a callback. *)
Lemma ServeHTTP_form_error_witness :
  let X := fixture_externals 0 in
  let clock := fun _ : nat => 1000 * Second in
  let p := fixture_proxy 0 (168 * Hour) 0 true true [] in
  let req := with_form (get "/oauth2/callback" ∅ []) (Some "invalid URL escape") no_form in
  events_of (ServeHTTP X clock p req 0%nat) =
    [LogPrintf "ErrorPage 500 Internal Error invalid URL escape";
     WriteHeader 500;
     ExecuteErrorTemplate "500 Internal Error" "invalid URL escape"].
Proof.
  intros X clock p req.
  rewrite (ServeHTTP_form_error X clock p req 0%nat "invalid URL escape").
  - reflexivity.
  - reflexivity.
  - right. right. reflexivity.
  - reflexivity.
Defined.



(** X14: the callback path, for a form that parses and carries no error.
    When the code cannot be redeemed (it is missing, or the provider
    fails) the failure is logged and the 500 error page shows it; no cookie
    is set.  When the email is redeemed, the [Validator] is asked once: a
    refusal gives the 403 page "Invalid Account" and no cookie; an
    acceptance sets the session cookie with the value [buildCookieValue]
    returned, also when it returned an error, which is only logged, and
    redirects with status 302 to the [state] value as it stands, or to /
    when there is none. *)
Theorem ServeHTTP_callback
    (X : Externals) (clock : nat -> Time) (p : OauthProxy X) (req : Request) (n : nat) :
  skip_auth X (compiledRegex p) (Path req) = false ->
  Path req = oauthCallbackPath ->
  ParseForm req = None ->
  Form req "error" = EmptyString ->
  let out := ServeHTTP X clock p req n in
  let rc := redeemCode X p (Host req) (Form req "code") n in
  let target := if String.eqb (Form req "state") "" then "/" else Form req "state" in
  (forall token email e,
     value_of rc = (token, email, Some e) ->
     exists line,
       out = (tt, n,
              events_of rc ++
              [LogPrintf line;
               LogPrintf ("ErrorPage 500 Internal Error " +:+ e);
               WriteHeader 500;
               ExecuteErrorTemplate "500 Internal Error" e])) /\
  (forall token email,
     value_of rc = (token, email, None) -> Validator p email = false ->
     out = (tt, n,
            events_of rc ++
            [CallValidator email;
             LogPrintf "ErrorPage 403 Permission Denied Invalid Account";
             WriteHeader 403;
             ExecuteErrorTemplate "403 Permission Denied" "Invalid Account"])) /\
  (forall token email,
     value_of rc = (token, email, None) -> Validator p email = true ->
     exists logs,
       forallb is_log logs = true /\
       events_of out =
         events_of rc ++ CallValidator email :: logs ++
         events_of (SetCookie X clock p req
                      (fst (buildCookieValue X email (AesCipher p) token)) n) ++
         [HttpRedirect target 302]).
Proof.
  intros Hs H Hf He out rc target. subst out target.
  unfold ServeHTTP. cbv zeta. rewrite Hs. decide_path H.
  rewrite Hf, He. cbn [String.eqb negb].
  rewrite bind_run. fold rc.
  pose proof (redeemCode_reads X p (Host req) (Form req "code") n) as Hreads.
  fold rc in Hreads. rewrite Hreads.
  split; [|split].
  - intros token email e Hrc. rewrite Hrc. cbv beta iota.
    eexists. unfold ErrorPage, log_Printf, bind, emit, ret, value_of, reads_of, events_of.
    simpl. reflexivity.
  - intros token email Hrc Hval. rewrite Hrc. cbv beta iota.
    unfold ErrorPage, log_Printf, bind, emit, ret, value_of, reads_of, events_of.
    rewrite Hval. simpl. reflexivity.
  - intros token email Hrc Hval. rewrite Hrc. cbv beta iota.
    unfold log_Printf, bind, emit, ret, value_of, reads_of, events_of.
    rewrite Hval. cbv beta iota.
    destruct (buildCookieValue X email (AesCipher p) token) as [value [e|]];
      cbv beta iota; cbn [fst];
      destruct (SetCookie X clock p req value n) as [[u n'] es]; simpl.
    + eexists [LogPrintf _; LogPrintf _]. split; [reflexivity|]. simpl. reflexivity.
    + eexists [LogPrintf _]. split; [reflexivity|]. simpl. reflexivity.
Qed.

(** X14 for a callback with code and state at the fixture provider. *)
Lemma ServeHTTP_callback_witness :
  let X := fixture_externals 0 in
  let clock := fun _ : nat => 1000 * Second in
  let p := fixture_proxy 0 (168 * Hour) 0 true true [] in
  let req := with_form (get "/oauth2/callback" ∅ []) None callback_form in
  exists logs,
    forallb is_log logs = true /\
    events_of (ServeHTTP X clock p req 0%nat) =
      [CallRedeem "https://proxy.example.com/oauth2/callback" "c0de";
       CallGetEmailAddress "body-of-c0de" "token-of-c0de";
       CallValidator "user@example.com"] ++ logs ++
      events_of (SetCookie X clock p req "user@example.com" 0%nat) ++
      [HttpRedirect "/reports" 302].
Proof.
  intros X clock p req.
  destruct (ServeHTTP_callback X clock p req 0%nat eq_refl eq_refl eq_refl eq_refl)
    as (_ & _ & Hok).
  destruct (Hok "token-of-c0de" "user@example.com" eq_refl eq_refl) as (logs & Hl & Hev).
  exists logs. split; [exact Hl|]. rewrite Hev. reflexivity.
Defined.

(** ** A refused session followed by Basic-Auth *)

(** X15: the identities of the two checks are mixed.  A session cookie
    that validates and parses but is stale and fails re-validation at the
    [Validator] is refused, yet its email and access token stay; when
    Basic-Auth then accepts a user, the request is forwarded with that
    user together with the email and the token of the refused session, and
    GAP-Auth names the refused email when it is not empty. *)
Theorem ServeHTTP_basic_auth_after_refused_session
    (X : Externals) (clock : nat -> Time) (p : OauthProxy X) (req : Request) (n : nat)
    (c : Cookie) (value : string) (issuedAt : Time)
    (email cookie_user access_token : string)
    (validate : string -> string -> bool) (user password : string) :
  ~ diagnostic_path (Path req) ->
  skip_auth X (compiledRegex p) (Path req) = false ->
  ~ oauth_flow_path (Path req) ->
  req_Cookie req (CookieKey p) = (Some c, None) ->
  validateCookie X c (CookieSeed p) = (value, issuedAt, true) ->
  parseCookieValue X value (AesCipher p) = (email, cookie_user, access_token, None) ->
  CookieRefresh p <> 0 ->
  (Unix (clock n + CookieRefresh p) >? Unix (issuedAt + CookieExpire p)) = true ->
  Validator p email = false ->
  HtpasswdValidator p = Some validate ->
  basic_credentials (Header_Get (Header req) "Authorization") user password ->
  validate user password = true ->
  events_of (ServeHTTP X clock p req n) =
    [CallValidator email;
     CallHtpasswdValidator user password;
     LogPrintf (basic_auth_line X user);
     SetResponseHeader "GAP-Auth" (if String.eqb email "" then user else email);
     ServeMux (forwarded_request X p req user email access_token)].
Proof.
  intros Hd Hs Ho Hc Hv Hp HR Hstale Hval Hh Hwf Hacc.
  assert (Hpc : ProcessCookie X clock p req n
                = ((email, cookie_user, access_token, false), S n, [CallValidator email])).
  { unfold ProcessCookie. rewrite Hc, Hv, Hp. cbv iota beta.
    apply Z.eqb_neq in HR. rewrite HR. cbn [negb].
    unfold bind at 1. unfold time_Now, Add. cbv beta iota. rewrite Hstale.
    unfold bind, emit, ret. rewrite Hval. reflexivity. }
  assert (Hba : CheckBasicAuth X p req (S n)
                = ((user, true), S n,
                   [CallHtpasswdValidator user password; LogPrintf (basic_auth_line X user)])).
  { destruct (CheckBasicAuth_cases X p req (S n) validate Hh)
      as [(u & pw & Hwf' & Hrun) | (Hnone & _)].
    - destruct (basic_credentials_unique _ _ _ _ _ Hwf Hwf') as [<- <-].
      rewrite Hacc in Hrun. exact Hrun.
    - exfalso. exact (Hnone _ _ Hwf). }
  pose proof (ServeHTTP_checks X clock p req n Hd Hs Ho) as Hev. cbv zeta in Hev.
  rewrite Hpc in Hev. cbn [value_of reads_of events_of fst snd] in Hev.
  rewrite Hba in Hev. cbn [fst snd] in Hev. exact Hev.
Qed.

(** X15 for a stale session of user@other.org, whom the validator
    refuses, and the Basic credentials of testuser. *)
Lemma ServeHTTP_basic_auth_after_refused_session_witness :
  let E := 3600 * Second in
  let R := 600 * Second in
  let X := fixture_externals 0 in
  let p := fixture_proxy 0 E R true true [] in
  let clock := fun _ : nat => 1700000000 * Second in
  let req := get "/app" basic_testuser [session_cookie "user@other.org"] in
  events_of (ServeHTTP X clock p req 0%nat) =
    [CallValidator "user@other.org";
     CallHtpasswdValidator "testuser" "a:b:c";
     LogPrintf (basic_auth_line X "testuser");
     SetResponseHeader "GAP-Auth" "user@other.org";
     ServeMux (forwarded_request X p req "testuser" "user@other.org"
                 "token-of-user@other.org")].
Proof.
  intros E R X p clock req.
  apply (ServeHTTP_basic_auth_after_refused_session X clock p req 0%nat
           (session_cookie "user@other.org") "user@other.org" 0
           "user@other.org" "user@other.org" "token-of-user@other.org"
           (fun user password =>
              String.eqb user "testuser" && String.eqb password "a:b:c")
           "testuser" "a:b:c").
  - intros [H|H]; discriminate H.
  - reflexivity.
  - intros [H|[H|H]]; discriminate H.
  - reflexivity.
  - reflexivity.
  - reflexivity.
  - vm_compute. discriminate.
  - vm_compute. reflexivity.
  - reflexivity.
  - reflexivity.
  - exists (Base64.EncodeToString "testuser:a:b:c"). vm_compute. repeat split.
  - reflexivity.
Defined.

(** ** Building the proxy *)

Lemma is_log_not_cookie (warnings : list event) (c : Cookie) :
  forallb is_log warnings = true -> ~ In (HttpSetCookie c) warnings.
Proof.
  induction warnings as [|w ws IH]; simpl; [tauto|].
  intros Hw [->|Hin]; [discriminate Hw|].
  apply andb_true_iff in Hw as [_ Hw]. exact (IH Hw Hin).
Qed.

(** The cookie [SetCookie] sends has the configured name and flag. *)
Lemma SetCookie_cookie
    (X : Externals) (clock : nat -> Time) (p : OauthProxy X) (req : Request)
    (val : string) (n : nat) (c : Cookie) :
  In (HttpSetCookie c) (events_of (SetCookie X clock p req val n)) ->
  Name c = CookieKey p /\ Secure c = CookieSecure p.
Proof.
  destruct (MakeCookie_run X clock p req) as (domain & warnings & Hw & _ & _ & Hrun).
  unfold SetCookie, bind, emit, events_of.
  rewrite (Hrun val (CookieExpire p) n). simpl.
  intros Hin. apply in_app_or in Hin as [Hin|[[= <-]|[]]].
  - exfalso. exact (is_log_not_cookie warnings c Hw Hin).
  - split; reflexivity.
Qed.

(** What a proxy that [NewOauthProxy] returns looks like. *)
Lemma NewOauthProxy_Started_inv
    (X : Externals) (aes_NewCipher : string -> option (Block X) * option string)
    (Regexp_String : Regexp X -> string) (Duration_String : Duration -> string)
    (opts : Startup.Options X) (validator : string -> bool)
    (p : OauthProxy X) (routes : list Startup.Route) :
  snd (Startup.NewOauthProxy X aes_NewCipher Regexp_String Duration_String opts validator)
    = Startup.Started p routes ->
  CookieKey p = "_oauthproxy" /\
  CookieSecure p = Startup.opts_CookieHttpsOnly opts && Startup.opts_CookieSecure opts /\
  redirectUrl p =
    {| Scheme := Scheme (Startup.opts_redirectUrl opts);
       URL_Host := URL_Host (Startup.opts_redirectUrl opts);
       URL_Path := oauthCallbackPath |} /\
  HtpasswdValidator p = None /\
  length routes = length (Startup.opts_proxyUrls opts) /\
  (Startup.opts_PassAccessToken opts || negb (Startup.opts_CookieRefresh opts =? 0) = false ->
     AesCipher p = None) /\
  (Startup.opts_PassAccessToken opts || negb (Startup.opts_CookieRefresh opts =? 0) = true ->
     aes_NewCipher (Startup.opts_CookieSecret opts) = (AesCipher p, None)).
Proof.
  unfold Startup.NewOauthProxy.
  destruct (Startup.opts_CookieHttpsOnly opts), (Startup.opts_CookieSecure opts);
    cbn [negb andb]; cbv beta iota zeta;
    destruct (Startup.opts_PassAccessToken opts
              || negb (Startup.opts_CookieRefresh opts =? 0));
    try destruct (aes_NewCipher (Startup.opts_CookieSecret opts)) as [aes_cipher [e|]];
    cbn [snd]; intros E; try discriminate E;
    injection E as <- <-; cbn;
    repeat match goal with |- _ /\ _ => split end;
    first [ reflexivity | apply length_map | discriminate | intros _; reflexivity ].
Qed.



End ProxyMore.
